(** * HahOrNahBot: a shallow embedding of [app/HahOrNahBot.py]

    The bot is a set of message handlers over a relational store (users,
    jokes, votes) and a per-chat [user_data] dictionary.  Every handler is
    embedded as a function from the store and the dictionary to a [Result]:
    the new store, the new dictionary, the messages sent to the chat, the
    log, and the value the handler returns to the conversation machinery.

    Outside the embedding: the chat transport (a message that is sent is
    recorded, sending does not fail), the responses file (every key the
    handlers ask for is there, and a text is identified by its key), and the
    database engine (a commit succeeds). *)

From Stdlib Require Import ZArith NArith QArith List Bool String Ascii Lia.
From Stdlib Require Import Permutation Sorting.Sorted.
Import ListNotations.
Open Scope Z_scope.

(** ** Python values *)

(** A Python [str] is a sequence of Unicode code points; [len] counts them. *)
Definition str := list N.

Definition py (s : string) : str := map N_of_ascii (list_ascii_of_string s).

Definition len {A : Type} (l : list A) : Z := Z.of_nat (List.length l).

(** [set(s) <= allowed] *)
Definition subset_of (s allowed : str) : bool :=
  forallb (fun c => existsb (N.eqb c) allowed) s.

(** [p in s] for strings: substring search. *)
Fixpoint startswith (p s : str) : bool :=
  match p, s with
  | [], _ => true
  | _ :: _, [] => false
  | a :: p', b :: s' => (a =? b)%N && startswith p' s'
  end.

Fixpoint contains (p s : str) : bool :=
  startswith p s ||
  match s with
  | [] => false
  | _ :: s' => contains p s'
  end.

(** [l[-1]], with [None] for the [IndexError] of an empty list. *)
Definition last_item {A : Type} (l : list A) : option A :=
  match rev l with
  | [] => None
  | x :: _ => Some x
  end.

(** [l.index(x)] for a test [is_x], with [None] for [ValueError]. *)
Fixpoint index_of {A : Type} (is_x : A -> bool) (l : list A) : option Z :=
  match l with
  | [] => None
  | y :: l' =>
      if is_x y then Some 0
      else match index_of is_x l' with
           | Some i => Some (i + 1)
           | None => None
           end
  end.

(** [enumerate(l)] starting at [start]. *)
Fixpoint enumerate_from {A : Type} (start : Z) (l : list A) : list (Z * A) :=
  match l with
  | [] => []
  | x :: l' => (start, x) :: enumerate_from (start + 1) l'
  end.

Definition enumerate {A : Type} (l : list A) : list (Z * A) := enumerate_from 0 l.

(** Exceptions of [app.exceptions] and the built-in ones the handlers meet. *)
Inductive exn : Type :=
| UserDoesNotExist
| InvalidCharacters
| TooShort
| TooLong
| InvalidVote
| AssertionError
| ValueError.

Inductive Exc (A : Type) : Type :=
| Ok (a : A)
| Raise (e : exn).

Arguments Ok {A} a.
Arguments Raise {A} e.

(** ** The store *)

(** Rows are identified by their primary key; an ORM session keeps one
    object per key, so a reference to a [User] or [Joke] object is its key
    and its attributes are read in the store. *)
Definition UserRef := Z.
Definition JokeRef := Z.

Record User : Type := mkUser {
  User_id : Z;
  username : str;
  score : Z
}.

Record Joke : Type := mkJoke {
  Joke_id : Z;
  body : str;
  vote_count : Z;
  author : UserRef
}.

(** One row of the vote association between users and jokes. *)
Record Vote : Type := mkVote {
  voter : UserRef;
  voted_joke : JokeRef;
  polarity : bool
}.

Record DB : Type := mkDB {
  users : list User;
  jokes : list Joke;
  votes : list Vote
}.

Definition empty_db : DB := mkDB [] [] [].

(** [session.add(user); session.commit()] *)
Definition add_user (u : User) (db : DB) : DB :=
  mkDB (users db ++ [u]) (jokes db) (votes db).

(** [session.add(new_joke); session.commit()] *)
Definition add_joke (j : Joke) (db : DB) : DB :=
  mkDB (users db) (jokes db ++ [j]) (votes db).

(** [session.query(User).filter(User.id == user_id).first()] *)
Definition query_user (db : DB) (user_id : Z) : option User :=
  find (fun u => User_id u =? user_id) (users db).

(** [query.order_by(key).all()]: the rows in ascending order of [key]; rows
    with equal keys keep the order of the table. *)
Fixpoint insert_by {A : Type} (key : A -> Z) (x : A) (l : list A) : list A :=
  match l with
  | [] => [x]
  | y :: l' => if key x <=? key y then x :: l else y :: insert_by key x l'
  end.

Definition order_by {A : Type} (key : A -> Z) (l : list A) : list A :=
  fold_right (insert_by key) [] l.

(** Ascending order of [key]. *)
Definition ascending {A : Type} (key : A -> Z) (l : list A) : Prop :=
  StronglySorted (fun a b => key a <= key b) l.

(** Modelled from the spec: the relationships [User.jokes_submitted] and
    [User.jokes_voted_for] of app.models, whose declarations are not in the
    source.  A joke is submitted by its [author]; the jokes voted for are the
    jokes the user has a vote on. *)
Definition jokes_submitted (db : DB) (user : UserRef) : list Joke :=
  filter (fun j => author j =? user) (jokes db).

Definition has_vote (db : DB) (user : UserRef) (joke : JokeRef) : bool :=
  existsb (fun v => (voter v =? user) && (voted_joke v =? joke)) (votes db).

Definition jokes_voted_for (db : DB) (user : UserRef) : list Joke :=
  filter (fun j => has_vote db user (Joke_id j)) (jokes db).

(** [joke in collection], on objects of the session. *)
Definition joke_in (joke : Joke) (collection : list Joke) : bool :=
  existsb (fun j => Joke_id j =? Joke_id joke) collection.

(** ** The chat side *)

(** [user_data]: the keys the handlers use, each absent or bound. *)
Record UserData : Type := mkUserData {
  current_user : option UserRef;
  user : option UserRef;
  last_joke : option JokeRef
}.

Definition no_user_data : UserData := mkUserData None None None.

Definition set_current_user (u : UserRef) (ud : UserData) : UserData :=
  mkUserData (Some u) (user ud) (last_joke ud).

Definition set_user (u : UserRef) (ud : UserData) : UserData :=
  mkUserData (current_user ud) (Some u) (last_joke ud).

Definition set_last_joke (j : JokeRef) (ud : UserData) : UserData :=
  mkUserData (current_user ud) (user ud) (Some j).

Definition del_last_joke (ud : UserData) : UserData :=
  mkUserData (current_user ud) (user ud) None.

(** What a handler sends to the chat.  A text taken from the responses file
    is identified by its key ([private_get_random_response] picks one of the
    variants stored under the key).  The texts of /top10 and /profile are
    format strings; they are recorded by the values that fill them: one
    [(rank, username, score)] per line of /top10, and the username, rank,
    score, number of jokes and average of /profile. *)
Inductive Out : Type :=
| reply_text (text : str)
| reply_random (state : string)
| new_user_keyboard
| menu_keyboard
| vote_keyboard
| remove_keyboard (state : string)
| reply_top10 (lines : list (Z * str * Z))
| reply_profile (name : str) (rank : Z) (points : Z) (jokes_count : Z) (average : Q).

Record Result : Type := mkResult {
  r_db : DB;
  r_user_data : UserData;
  r_out : list Out;
  r_log : list exn;
  r_return : option Z
}.

(** ** ConversationHandler *)

Definition END : Z := -1.
Definition USERNAME_RECEIVED : Z := 0.
Definition JOKE_RECEIVED : Z := 0.

(** The state of one conversation, as the library's [ConversationHandler]
    keeps it: [None] when no conversation is open (IDLE), [Some s] inside
    it.  A handler that returns [END] closes the conversation, one that
    returns [None] leaves the state as it is, any other value becomes the
    new state. *)
Definition update_state (new_state : option Z) (state : option Z) : option Z :=
  match new_state with
  | None => state
  | Some s => if s =? END then None else Some s
  end.

Definition IDLE : option Z := None.
Definition AWAITING_USERNAME : option Z := Some USERNAME_RECEIVED.
Definition AWAITING_JOKE_BODY : option Z := Some JOKE_RECEIVED.

(** ** The bot *)

Definition JOKE_LENGTH_MIN : Z := 10.
Definition JOKE_LENGTH_MAX : Z := 1000.
Definition USERNAME_LENGTH_MIN : Z := 5.
Definition USERNAME_LENGTH_MAX : Z := 20.

Definition ascii_letters : string :=
  "abcdefghijklmnopqrstuvwxyzABCDEFGHIJKLMNOPQRSTUVWXYZ"%string.
Definition digits : string := "0123456789"%string.

Definition USERNAME_ALLOWED_CHARACTERS : str :=
  py (ascii_letters ++ digits ++ "-_")%string.

Definition private_get_user (db : DB) (chat_id : Z) (user_data : UserData)
  : Exc (UserRef * UserData) :=
  match current_user user_data with
  | Some u => Ok (u, user_data)
  | None =>
      match query_user db chat_id with
      | None => Raise UserDoesNotExist
      | Some u => Ok (User_id u, set_current_user (User_id u) user_data)
      end
  end.

Definition private_add_user (db : DB) (user_id : Z) (name : str)
  : Exc (DB * User) :=
  let only_allowed_chars := subset_of name USERNAME_ALLOWED_CHARACTERS in
  if negb only_allowed_chars then Raise InvalidCharacters
  else if len name <? USERNAME_LENGTH_MIN then Raise TooShort
  else if USERNAME_LENGTH_MAX <? len name then Raise TooLong
  else
    match query_user db user_id with
    | Some _ => Raise AssertionError
    | None =>
        let u := mkUser user_id name 0 in
        Ok (add_user u db, u)
    end.

(** The value returned is [None] or a [Joke] object. *)
Definition private_add_joke (db : DB) (joke_body : str) (author : UserRef)
  : Exc (DB * option Joke) :=
  if len joke_body <? JOKE_LENGTH_MIN then Raise TooShort
  else if JOKE_LENGTH_MAX <? len joke_body then Raise TooLong
  else
    let all_jokes := order_by Joke_id (jokes db) in
    let joke_id :=
      match last_item all_jokes with
      | Some last_joke => Joke_id last_joke + 1
      | None => 0
      end in
    let new_joke := mkJoke joke_id joke_body 0 author in
    Ok (add_joke new_joke db, None).

(** A joke the user may still be shown: [not voted_already and not
    user_is_author]. *)
Definition unseen (db : DB) (u : UserRef) (joke : Joke) : bool :=
  let voted_already := joke_in joke (jokes_voted_for db u) in
  let user_is_author := joke_in joke (jokes_submitted db u) in
  negb voted_already && negb user_is_author.

(** [randint(a, b)] raises [ValueError] on an empty range; the index it
    draws is not used by the caller. *)
Definition randint_raises (a b : Z) : bool := b <? a.

Section Bot.

(** [User.vote_for_joke(joke, positive)] and [User.get_average_score()]
    belong to app.models, which is not in the source: the handlers are
    embedded over any implementation of them.  A vote either raises or
    yields the store with the vote recorded. *)
Variable User_vote_for_joke : DB -> UserRef -> JokeRef -> bool -> Exc DB.
Variable get_average_score : DB -> UserRef -> Q.

(** [random.shuffle]: the order drawn for this call. *)
Variable shuffle : list Joke -> list Joke.

Definition cancel (db : DB) (user_data : UserData) : Result :=
  mkResult db user_data [reply_random "cancel"; menu_keyboard] [] (Some END).

Definition menu (db : DB) (chat_id : Z) (user_data : UserData) : Result :=
  match private_get_user db chat_id user_data with
  | Raise _ => mkResult db user_data [new_user_keyboard] [] None
  | Ok (_, user_data1) => mkResult db user_data1 [menu_keyboard] [] None
  end.

Definition new_user_prompt (db : DB) (user_data : UserData) : Result :=
  mkResult db user_data [reply_random "user_new_prompt"] []
           (Some USERNAME_RECEIVED).

(** Whatever [private_add_user] raises, the [return] of the [finally]
    clause ends the handler with [None]. *)
Definition new_user_received_username
  (db : DB) (chat_id : Z) (text : str) (user_data : UserData) : Result :=
  match private_add_user db chat_id text with
  | Ok (db1, u) =>
      mkResult db1 (set_user (User_id u) user_data)
               [reply_random "user_register_success"; menu_keyboard] [] None
  | Raise InvalidCharacters =>
      mkResult db user_data [reply_random "username_invalid_characters"] [] None
  | Raise TooShort =>
      mkResult db user_data [reply_random "username_too_short"] [] None
  | Raise TooLong =>
      mkResult db user_data [reply_random "username_too_long"] [] None
  | Raise _ => mkResult db user_data [] [] None
  end.

Definition new_joke_prompt (db : DB) (user_data : UserData) : Result :=
  mkResult db user_data [remove_keyboard "joke_new_prompt"] []
           (Some JOKE_RECEIVED).

Definition new_joke_received
  (db : DB) (chat_id : Z) (text : str) (user_data : UserData) : Result :=
  match private_get_user db chat_id user_data with
  | Raise _ => mkResult db user_data [new_user_keyboard] [] None
  | Ok (u, user_data1) =>
      match private_add_joke db text u with
      | Ok (db1, _) =>
          mkResult db1 user_data1
                   [reply_random "joke_submitted"; menu_keyboard] [] None
      | Raise TooShort =>
          mkResult db user_data1 [reply_random "joke_too_short"] [] None
      | Raise TooLong =>
          mkResult db user_data1 [reply_random "joke_too_long"] [] None
      | Raise _ => mkResult db user_data1 [] [] None
      end
  end.

Definition display_random_joke
  (db : DB) (chat_id : Z) (user_data : UserData) : Result :=
  match private_get_user db chat_id user_data with
  | Raise _ => mkResult db user_data [new_user_keyboard] [] None
  | Ok (u, user_data1) =>
      let all_jokes := jokes db in
      if randint_raises 0 (len all_jokes - 1) then
        mkResult db user_data1 [reply_random "no_new_jokes"] [] None
      else
        match find (unseen db u) (shuffle all_jokes) with
        | Some random_joke =>
            mkResult db (set_last_joke (Joke_id random_joke) user_data1)
                     [reply_text (body random_joke); vote_keyboard] [] None
        | None =>
            mkResult db user_data1 [reply_random "no_new_jokes"] [] None
        end
  end.

(** When the loop finds no joke the handler ends without a reply. *)
Definition display_best_joke
  (db : DB) (chat_id : Z) (user_data : UserData) : Result :=
  match private_get_user db chat_id user_data with
  | Raise _ => mkResult db user_data [new_user_keyboard] [] None
  | Ok (u, user_data1) =>
      let jokes_by_score := order_by vote_count (jokes db) in
      match find (unseen db u) jokes_by_score with
      | Some joke => mkResult db user_data1 [reply_text (body joke)] [] None
      | None => mkResult db user_data1 [] [] None
      end
  end.

(** An [InvalidVote] is logged; the [return] of the [finally] clause
    drops any other exception.  In every case the keyboard is removed with
    the [after_vote] text and the [last_joke] key is deleted. *)
Definition vote_for_joke
  (db : DB) (chat_id : Z) (text : str) (user_data : UserData) : Result :=
  match private_get_user db chat_id user_data with
  | Raise _ => mkResult db user_data [new_user_keyboard] [] None
  | Ok (u, user_data1) =>
      match last_joke user_data1 with
      | None =>
          mkResult db user_data1 [reply_random "joke_no_current"] [] None
      | Some joke =>
          let vote_positive := contains (py "hah") text in
          match User_vote_for_joke db u joke vote_positive with
          | Ok db1 =>
              mkResult db1 (del_last_joke user_data1)
                       [remove_keyboard "after_vote"] [] None
          | Raise InvalidVote =>
              mkResult db (del_last_joke user_data1)
                       [remove_keyboard "after_vote"] [InvalidVote] None
          | Raise _ =>
              mkResult db (del_last_joke user_data1)
                       [remove_keyboard "after_vote"] [] None
          end
      end
  end.

(** [all_users.index(user)] raises [ValueError], which nothing catches,
    when the user is not among the rows. *)
Definition profile
  (db : DB) (chat_id : Z) (user_data : UserData) : Exc Result :=
  match private_get_user db chat_id user_data with
  | Raise _ => Ok (mkResult db user_data [new_user_keyboard] [] None)
  | Ok (u, user_data1) =>
      let all_users := order_by score (users db) in
      let is_user := fun row => User_id row =? u in
      match index_of is_user all_users, find is_user all_users with
      | Some i, Some row =>
          let user_rank := i + 1 in
          let jokes_submitted_count := len (jokes_submitted db u) in
          let average_score := get_average_score db u in
          Ok (mkResult db user_data1
                [reply_profile (username row) user_rank (score row)
                               jokes_submitted_count average_score] [] None)
      | _, _ => Raise ValueError
      end
  end.

Definition top10 (db : DB) (chat_id : Z) (user_data : UserData) : Result :=
  match private_get_user db chat_id user_data with
  | Raise _ => mkResult db user_data [new_user_keyboard] [] None
  | Ok (_, user_data1) =>
      let all_users := order_by score (users db) in
      let top_10_users := firstn 10 all_users in
      let reply_message :=
        map (fun '(index, row) => (index + 1, username row, score row))
            (enumerate top_10_users) in
      mkResult db user_data1 [reply_top10 reply_message] [] None
  end.

End Bot.

(** ** The parts of app.models the handlers call *)

(** Modelled from the spec: [User.vote_for_joke] of app.models is not in the
    source.  A duplicate vote or a vote on an own joke raises [InvalidVote];
    otherwise the vote increments (hah) or decrements (nah) the joke's
    [vote_count] and adds the joke to the voter's voted-for set. *)
Definition spec_vote_for_joke
  (db : DB) (u : UserRef) (joke : JokeRef) (vote_positive : bool) : Exc DB :=
  let is_joke := fun j => Joke_id j =? joke in
  if has_vote db u joke || existsb is_joke (jokes_submitted db u) then
    Raise InvalidVote
  else
    let delta := if vote_positive then 1 else -1 in
    let count_vote := fun j =>
      if is_joke j
      then mkJoke (Joke_id j) (body j) (vote_count j + delta) (author j)
      else j in
    Ok (mkDB (users db) (map count_vote (jokes db))
             (votes db ++ [mkVote u joke vote_positive])).

(** Modelled from the spec: [User.get_average_score] of app.models is not in
    the source.  The sum of the vote counts of the jokes the user authored,
    divided by their number; 0 without jokes. *)
Definition spec_get_average_score (db : DB) (u : UserRef) : Q :=
  let mine := jokes_submitted db u in
  match mine with
  | [] => 0%Q
  | _ :: _ =>
      Qmake (fold_right Z.add 0 (map vote_count mine))
            (Pos.of_nat (List.length mine))
  end.

(** ** The username and joke rules in the words of the specification *)

Definition is_letter (c : N) : bool :=
  ((65 <=? c) && (c <=? 90) || (97 <=? c) && (c <=? 122))%N.

Definition is_digit (c : N) : bool := ((48 <=? c) && (c <=? 57))%N.

(** A letter, a digit, [-] or [_]. *)
Definition username_char (c : N) : bool :=
  (is_letter c || is_digit c || (c =? 45) || (c =? 95))%N.

Definition username_ok (s : str) : bool :=
  (5 <=? len s) && (len s <=? 20) && forallb username_char s.

Definition joke_body_ok (s : str) : bool := (10 <=? len s) && (len s <=? 1000).

(** Authored by the user, or already voted on by the user. *)
Definition seen_by (db : DB) (u : UserRef) (joke : Joke) : bool :=
  (author joke =? u) || has_vote db u (Joke_id joke).

(** Jokes submitted one after the other, each by its author. *)
Fixpoint add_jokes (db : DB) (submissions : list (str * UserRef)) : Exc DB :=
  match submissions with
  | [] => Ok db
  | (joke_body, who) :: rest =>
      match private_add_joke db joke_body who with
      | Ok (db1, _) => add_jokes db1 rest
      | Raise e => Raise e
      end
  end.

(** ** Sample data *)

Definition alice : User := mkUser 1 (py "alice") 0.
Definition bobby : User := mkUser 2 (py "bobby") 3.
Definition carol : User := mkUser 3 (py "carol") (-2).

Definition chicken : str := py "why did the chicken cross the road".
Definition knock : str := py "knock knock, who is there?".

Definition joke0 : Joke := mkJoke 0 chicken 2 1.
Definition joke1 : Joke := mkJoke 1 knock 0 2.
Definition joke2 : Joke := mkJoke 2 (py "a joke with the fewest votes") (-1) 1.

Definition sample_db : DB :=
  mkDB [alice; bobby; carol] [joke0; joke1; joke2] [mkVote 3 0 true].

Definition only_users_db : DB := mkDB [alice; bobby; carol] [] [].

(** A session that has displayed [joke1]. *)
Definition shown_joke1 : UserData := mkUserData None None (Some 1).

(** A store in which user 1 has authored or voted on every joke. *)
Definition exhausted_db : DB :=
  mkDB [alice; bobby] [joke0; joke1] [mkVote 1 1 true].

(** ** Histories *)

(** What changes the store: a registration, a joke submission, a vote. *)
Inductive Action : Type :=
| register (chat_id : Z) (name : str)
| submit (who : UserRef) (joke_body : str)
| cast (who : UserRef) (joke : JokeRef) (vote_positive : bool).

(** The store after an action; an action that raises leaves it as it is.
    Votes are cast with [spec_vote_for_joke]. *)
Definition perform (db : DB) (a : Action) : DB :=
  match a with
  | register chat_id name =>
      match private_add_user db chat_id name with
      | Ok (db1, _) => db1
      | Raise _ => db
      end
  | submit who joke_body =>
      match private_add_joke db joke_body who with
      | Ok (db1, _) => db1
      | Raise _ => db
      end
  | cast who joke vote_positive =>
      match spec_vote_for_joke db who joke vote_positive with
      | Ok db1 => db1
      | Raise _ => db
      end
  end.

Definition history (db : DB) (actions : list Action) : DB :=
  fold_left perform actions db.

(** Some joke with this id is authored by the user. *)
Definition authored (db : DB) (u : UserRef) (joke : JokeRef) : bool :=
  existsb (fun j => (Joke_id j =? joke) && (author j =? u)) (jokes db).

(** ** The responses file *)

(** [self.responses]: the dictionary read from the responses file, from a
    key to the texts stored under it.  The first binding of a key is the
    one the dictionary holds. *)
Definition Responses := list (string * list str).

Fixpoint dict_get {V : Type} (key : string) (d : list (string * V)) : option V :=
  match d with
  | [] => None
  | (k, v) :: d' => if String.eqb k key then Some v else dict_get key d'
  end.

(** What a lookup of a response ends with: a text, the [exit()] taken when
    the key is missing, or the [IndexError] of an empty list. *)
Inductive Fetched : Type :=
| Got (text : str)
| Exit
| NoVariant.

(** [random.choice(l)]: the element at the index drawn, [None] for the
    [IndexError] of an empty sequence.  The index is [draw] brought into the
    range of the sequence. *)
Definition choice {A : Type} (draw : nat) (l : list A) : option A :=
  match l with
  | [] => None
  | _ :: _ => nth_error l (Nat.modulo draw (List.length l))
  end.

Definition private_get_random_response
  (responses : Responses) (draw : nat) (state : string) : Fetched :=
  match dict_get state responses with
  | None => Exit
  | Some variants =>
      match choice draw variants with
      | Some response => Got response
      | None => NoVariant
      end
  end.

Definition private_get_one_response
  (responses : Responses) (state : string) : Fetched :=
  match dict_get state responses with
  | None => Exit
  | Some variants =>
      match variants with
      | response :: _ => Got response
      | [] => NoVariant
      end
  end.

(** ** Favorite jokes *)

Section Favorites.

(** [User.get_jokes_voted_positive()] belongs to app.models, which is not in
    the source: the handler is embedded over any implementation of it. *)
Variable User_get_jokes_voted_positive : DB -> UserRef -> list Joke.

(** The index [random.choice] draws in this call. *)
Variable draw : nat.

Definition display_random_favorite_joke
  (db : DB) (chat_id : Z) (user_data : UserData) : Result :=
  match private_get_user db chat_id user_data with
  | Raise _ => mkResult db user_data [new_user_keyboard] [] None
  | Ok (u, user_data1) =>
      let all_favorite_jokes := User_get_jokes_voted_positive db u in
      match choice draw all_favorite_jokes with
      | None =>
          mkResult db user_data1 [reply_random "joke_no_favorite"] [] None
      | Some random_joke =>
          mkResult db user_data1 [reply_text (body random_joke)] [] None
      end
  end.

End Favorites.

(** Modelled from the spec: [User.get_jokes_voted_positive] of app.models is
    not in the source.  The jokes the user voted "hah" on. *)
Definition spec_get_jokes_voted_positive (db : DB) (u : UserRef) : list Joke :=
  filter (fun j =>
            existsb (fun v => (voter v =? u) && (voted_joke v =? Joke_id j)
                              && polarity v)
                    (votes db))
         (jokes db).

(** Two sessions that differ at most under the key ['user']. *)
Definition same_but_user (ud ud' : UserData) : Prop :=
  current_user ud = current_user ud' /\ last_joke ud = last_joke ud'.

(** Two results that differ at most under the key ['user'] of the session. *)
Definition same_result_but_user (r r' : Result) : Prop :=
  r_db r = r_db r' /\ r_out r = r_out r' /\ r_log r = r_log r'
  /\ r_return r = r_return r'
  /\ same_but_user (r_user_data r) (r_user_data r').

(** A result that leaves the store, the key ['user'] and the remembered
    joke as they were, and logs nothing. *)
Definition untouched (db : DB) (ud : UserData) (r : Result) : Prop :=
  r_db r = db /\ user (r_user_data r) = user ud
  /\ last_joke (r_user_data r) = last_joke ud /\ r_log r = [].

(** More sample data: a store with twelve users, scores 12 down to 1. *)
Definition twelve_users : list User :=
  map (fun n => mkUser (Z.of_nat n) (py "someone") (13 - Z.of_nat n))
      (seq 1 12).

Definition twelve_db : DB := mkDB twelve_users [] [].

Definition sample_responses : Responses :=
  [("cancel"%string, [py "Cancelled."; py "Never mind."]);
   ("user_new_keyboard_button"%string, [py "Register"]);
   ("empty"%string, [])].

(** * Properties *)

(** ** Lists and queries *)

Section OrderBy.

Context {A : Type} (key : A -> Z).

Lemma insert_by_perm (x : A) (l : list A) :
  Permutation (x :: l) (insert_by key x l).
Proof.
  induction l as [|y l IH]; simpl.
  - apply Permutation_refl.
  - destruct (key x <=? key y).
    + apply Permutation_refl.
    + eapply perm_trans; [apply perm_swap|].
      apply perm_skip, IH.
Qed.

Lemma order_by_perm (l : list A) : Permutation l (order_by key l).
Proof.
  induction l as [|x l IH]; simpl.
  - constructor.
  - eapply perm_trans; [apply perm_skip, IH|].
    apply insert_by_perm.
Qed.

Lemma order_by_In (x : A) (l : list A) : In x (order_by key l) <-> In x l.
Proof.
  split; apply Permutation_in;
    [apply Permutation_sym|]; apply order_by_perm.
Qed.

Lemma insert_by_ascending (x : A) (l : list A) :
  ascending key l -> ascending key (insert_by key x l).
Proof.
  unfold ascending.
  induction l as [|y l IH]; simpl; intros Hs.
  - constructor; constructor.
  - inversion Hs as [|? ? Hl Hy]; subst.
    destruct (key x <=? key y) eqn:E.
    + apply Z.leb_le in E.
      constructor; [assumption|].
      constructor; [assumption|].
      eapply Forall_impl; [|exact Hy].
      intros b Hb; simpl in Hb; lia.
    + apply Z.leb_gt in E.
      constructor; [apply IH; assumption|].
      eapply Permutation_Forall; [apply insert_by_perm|].
      constructor; [lia|assumption].
Qed.

Lemma order_by_ascending (l : list A) : ascending key (order_by key l).
Proof.
  induction l as [|x l IH]; simpl.
  - constructor.
  - apply insert_by_ascending, IH.
Qed.

Lemma ascending_last_max (l : list A) (x : A) :
  ascending key (l ++ [x]) -> forall y, In y (l ++ [x]) -> key y <= key x.
Proof.
  unfold ascending.
  induction l as [|a l IH]; simpl; intros Hs y Hy.
  - destruct Hy as [<-|[]]; lia.
  - inversion Hs as [|? ? Hl Ha]; subst.
    destruct Hy as [<-|Hy].
    + rewrite Forall_forall in Ha.
      apply Ha, in_or_app; right; left; reflexivity.
    + apply IH; assumption.
Qed.

Lemma last_item_app (l : list A) (x : A) : last_item (l ++ [x]) = Some x.
Proof. unfold last_item. rewrite rev_unit. reflexivity. Qed.

Lemma last_item_inv (l : list A) :
  match last_item l with
  | None => l = []
  | Some x => exists l', l = l' ++ [x]
  end.
Proof.
  unfold last_item.
  destruct (rev l) as [|x r] eqn:E.
  - apply (f_equal (@rev A)) in E. rewrite rev_involutive in E. exact E.
  - exists (rev r).
    apply (f_equal (@rev A)) in E. rewrite rev_involutive in E. exact E.
Qed.

(** The last row of an [order_by] query carries the greatest key. *)
Lemma last_order_by_max (l : list A) :
  match last_item (order_by key l) with
  | None => l = []
  | Some x => In x l /\ forall y, In y l -> key y <= key x
  end.
Proof.
  pose proof (last_item_inv (order_by key l)) as H.
  destruct (last_item (order_by key l)) as [x|].
  - destruct H as [l' E].
    pose proof (order_by_ascending l) as Hs. rewrite E in Hs.
    split.
    + apply order_by_In. rewrite E. apply in_or_app; right; left; reflexivity.
    + intros y Hy. apply (ascending_last_max l' x Hs).
      rewrite <- E. apply order_by_In, Hy.
  - apply Permutation_nil, Permutation_sym.
    rewrite <- H. apply order_by_perm.
Qed.

End OrderBy.

Lemma find_app_new {A : Type} (f : A -> bool) (l : list A) (x : A) :
  find f l = None -> f x = true -> find f (l ++ [x]) = Some x.
Proof.
  induction l as [|y l IH]; simpl; intros Hl Hx.
  - rewrite Hx. reflexivity.
  - destruct (f y); [discriminate|]. apply IH; assumption.
Qed.

(** ** Registration *)

(** The characters of [USERNAME_ALLOWED_CHARACTERS] are the ASCII letters,
    the digits, [-] and [_]. *)
Lemma allowed_characters (c : N) :
  existsb (N.eqb c) USERNAME_ALLOWED_CHARACTERS = username_char c.
Proof.
  destruct (N.ltb c 123) eqn:E.
  - apply N.ltb_lt in E.
    assert (Hall : forallb
              (fun k => Bool.eqb (existsb (N.eqb k) USERNAME_ALLOWED_CHARACTERS)
                                 (username_char k))
              (map N.of_nat (seq 0 123)) = true) by (vm_compute; reflexivity).
    rewrite forallb_forall in Hall.
    apply Bool.eqb_prop, Hall.
    apply in_map_iff. exists (N.to_nat c). split.
    + apply N2Nat.id.
    + apply in_seq. lia.
  - apply N.ltb_ge in E.
    assert (Hsmall : forallb (fun k => N.ltb k 123) USERNAME_ALLOWED_CHARACTERS = true)
      by (vm_compute; reflexivity).
    rewrite forallb_forall in Hsmall.
    transitivity false.
    + destruct (existsb (N.eqb c) USERNAME_ALLOWED_CHARACTERS) eqn:Ex; [|reflexivity].
      apply existsb_exists in Ex. destruct Ex as [k [Hk Hck]].
      apply N.eqb_eq in Hck. subst k.
      apply Hsmall, N.ltb_lt in Hk. lia.
    + unfold username_char, is_letter, is_digit.
      repeat match goal with
             | |- context [N.leb ?a ?b] => destruct (N.leb_spec a b)
             | |- context [N.eqb ?a ?b] => destruct (N.eqb_spec a b)
             end; simpl; try reflexivity; lia.
Qed.

Lemma only_allowed_chars_spec (s : str) :
  subset_of s USERNAME_ALLOWED_CHARACTERS = forallb username_char s.
Proof.
  unfold subset_of. induction s as [|c s IH]; cbn [forallb].
  - reflexivity.
  - rewrite allowed_characters, IH. reflexivity.
Qed.

Lemma private_add_user_success (db : DB) (user_id : Z) (name : str) :
  query_user db user_id = None -> username_ok name = true ->
  private_add_user db user_id name
    = Ok (add_user (mkUser user_id name 0) db, mkUser user_id name 0).
Proof.
  intros Hnew Hok. unfold username_ok in Hok.
  apply andb_true_iff in Hok. destruct Hok as [Hlen Hchars].
  apply andb_true_iff in Hlen. destruct Hlen as [Hmin Hmax].
  apply Z.leb_le in Hmin, Hmax.
  unfold private_add_user, USERNAME_LENGTH_MIN, USERNAME_LENGTH_MAX.
  rewrite only_allowed_chars_spec, Hchars, Hnew. simpl.
  destruct (Z.ltb_spec (len name) 5); [lia|].
  destruct (Z.ltb_spec 20 (len name)); [lia|]. reflexivity.
Qed.

(** C2. For a username submitted by an identity that is not yet registered,
    [private_add_user] succeeds exactly when the name has 5 to 20 characters,
    each a letter, a digit, [-] or [_].  Otherwise it raises one exception:
    [InvalidCharacters] whenever a character is not allowed (whatever the
    length), else [TooShort] below 5 characters, else [TooLong] above 20.
    On success the user it returns has score 0 and is the row now stored
    under the identity. *)
Theorem register_user_validation
  (db : DB) (user_id : Z) (name : str)
  (Hnew : query_user db user_id = None) :
  let new_user := mkUser user_id name 0 in
  ((exists db1 u, private_add_user db user_id name = Ok (db1, u))
     <-> username_ok name = true)
  /\ (private_add_user db user_id name = Raise InvalidCharacters
        <-> forallb username_char name = false)
  /\ (private_add_user db user_id name = Raise TooShort
        <-> forallb username_char name = true /\ len name < 5)
  /\ (private_add_user db user_id name = Raise TooLong
        <-> forallb username_char name = true /\ 5 <= len name /\ 20 < len name)
  /\ (username_ok name = true ->
        private_add_user db user_id name = Ok (add_user new_user db, new_user)
        /\ score new_user = 0
        /\ query_user (add_user new_user db) user_id = Some new_user).
Proof.
  intros new_user.
  assert (Hstored : query_user (add_user new_user db) user_id = Some new_user).
  { unfold query_user, add_user; simpl.
    apply find_app_new; [exact Hnew|]. simpl. apply Z.eqb_refl. }
  unfold private_add_user, username_ok.
  rewrite only_allowed_chars_spec, Hnew.
  unfold USERNAME_LENGTH_MIN, USERNAME_LENGTH_MAX.
  destruct (forallb username_char name); simpl.
  - destruct (Z.ltb_spec (len name) 5) as [Hs|Hs];
      destruct (Z.ltb_spec 20 (len name)) as [Hl|Hl];
      destruct (Z.leb_spec 5 (len name)); destruct (Z.leb_spec (len name) 20);
      try lia; simpl;
      repeat split; try congruence; try lia; eauto;
      try (intros [? [? ?]]; discriminate);
      try (intros [? ?]; lia); try (intros [? [? ?]]; lia).
  - rewrite andb_false_r.
    repeat split; try congruence; try discriminate;
      try (intros [? [? ?]]; discriminate);
      try (intros [? ?]; discriminate).
Qed.

(** ** Joke submission *)

Lemma joke_body_ok_iff (s : str) :
  joke_body_ok s = true <-> 10 <= len s <= 1000.
Proof.
  unfold joke_body_ok. rewrite andb_true_iff, !Z.leb_le. tauto.
Qed.

(** A valid body is stored under the id that follows the greatest one. *)
Lemma private_add_joke_success (db : DB) (joke_body : str) (who : UserRef) :
  joke_body_ok joke_body = true ->
  exists new_id,
    private_add_joke db joke_body who
      = Ok (add_joke (mkJoke new_id joke_body 0 who) db, None)
    /\ (jokes db = [] -> new_id = 0)
    /\ (jokes db <> [] ->
          exists top, In top (jokes db) /\ new_id = Joke_id top + 1
                      /\ forall j, In j (jokes db) -> Joke_id j <= Joke_id top).
Proof.
  intros Hok. apply joke_body_ok_iff in Hok.
  unfold private_add_joke, JOKE_LENGTH_MIN, JOKE_LENGTH_MAX.
  destruct (Z.ltb_spec (len joke_body) 10); [lia|].
  destruct (Z.ltb_spec 1000 (len joke_body)); [lia|].
  pose proof (last_order_by_max Joke_id (jokes db)) as Hlast.
  destruct (last_item (order_by Joke_id (jokes db))) as [top|].
  - destruct Hlast as [Hin Hmax].
    exists (Joke_id top + 1). split; [reflexivity|]. split.
    + intros E. rewrite E in Hin. destruct Hin.
    + intros _. exists top. auto.
  - exists 0. split; [reflexivity|]. split; [reflexivity|].
    intros Hne. contradiction.
Qed.

Lemma add_jokes_ids (submissions : list (str * UserRef)) :
  Forall (fun s => joke_body_ok (fst s) = true) submissions ->
  forall (db : DB) (n : nat),
    map Joke_id (jokes db) = map Z.of_nat (seq 0 n) ->
    exists db1,
      add_jokes db submissions = Ok db1
      /\ map Joke_id (jokes db1)
         = map Z.of_nat (seq 0 (n + List.length submissions)).
Proof.
  induction 1 as [|[joke_body who] rest Hok _ IH]; intros db n Hids.
  - exists db. rewrite Nat.add_0_r. auto.
  - simpl in Hok.
    destruct (private_add_joke_success db joke_body who Hok)
      as [new_id [Hadd [Hempty Hnext]]].
    assert (Hid : new_id = Z.of_nat n).
    { destruct n as [|n].
      - apply Hempty. simpl in Hids.
        destruct (jokes db); [reflexivity|discriminate].
      - destruct Hnext as [top [Hin [-> Hmax]]].
        { intros E. rewrite E in Hids. simpl in Hids. discriminate. }
        assert (Hle : Joke_id top <= Z.of_nat n).
        { apply (in_map Joke_id) in Hin. rewrite Hids in Hin.
          apply in_map_iff in Hin. destruct Hin as [k [<- Hk]].
          apply in_seq in Hk. lia. }
        assert (Hge : Z.of_nat n <= Joke_id top).
        { assert (Hn : In (Z.of_nat n) (map Joke_id (jokes db))).
          { rewrite Hids. apply in_map, in_seq. lia. }
          apply in_map_iff in Hn. destruct Hn as [j [<- Hj]].
          apply Hmax, Hj. }
        lia. }
    subst new_id.
    destruct (IH (add_joke (mkJoke (Z.of_nat n) joke_body 0 who) db) (S n))
      as [db1 [Hrun Hids1]].
    { simpl jokes. rewrite map_app, Hids, seq_S, map_app. reflexivity. }
    exists db1. split.
    + simpl. rewrite Hadd. exact Hrun.
    + rewrite Hids1. simpl List.length. f_equal. f_equal. lia.
Qed.

(** C3 (amended). [private_add_joke] succeeds exactly when the body has 10
    to 1000 characters, raising [TooShort] below and [TooLong] above.  On
    success it stores a new joke with vote count 0 under the greatest
    existing id plus 1 (0 in an empty repository), so that jokes added one
    after the other to an empty repository get the ids 0, 1, 2, ...; the
    value it returns is [None], not the joke. *)
Theorem add_joke_validation
  (db : DB) (joke_body : str) (who : UserRef) :
  ((exists db1 r, private_add_joke db joke_body who = Ok (db1, r))
     <-> joke_body_ok joke_body = true)
  /\ (private_add_joke db joke_body who = Raise TooShort <-> len joke_body < 10)
  /\ (private_add_joke db joke_body who = Raise TooLong <-> 1000 < len joke_body)
  /\ (joke_body_ok joke_body = true ->
        exists new_id,
          private_add_joke db joke_body who
            = Ok (add_joke (mkJoke new_id joke_body 0 who) db, None)
          /\ (jokes db = [] -> new_id = 0)
          /\ (jokes db <> [] ->
                exists top, In top (jokes db) /\ new_id = Joke_id top + 1
                            /\ forall j, In j (jokes db) -> Joke_id j <= Joke_id top))
  /\ (forall submissions : list (str * UserRef),
        Forall (fun s => joke_body_ok (fst s) = true) submissions ->
        exists db1,
          add_jokes empty_db submissions = Ok db1
          /\ map Joke_id (jokes db1)
             = map Z.of_nat (seq 0 (List.length submissions))).
Proof.
  split; [|split; [|split; [|split]]].
  - split.
    + intros [db1 [r Hr]]. apply joke_body_ok_iff.
      unfold private_add_joke, JOKE_LENGTH_MIN, JOKE_LENGTH_MAX in Hr.
      destruct (Z.ltb_spec (len joke_body) 10); [discriminate|].
      destruct (Z.ltb_spec 1000 (len joke_body)); [discriminate|]. lia.
    + intros Hok.
      destruct (private_add_joke_success db joke_body who Hok) as [i [Hi _]].
      eauto.
  - unfold private_add_joke, JOKE_LENGTH_MIN, JOKE_LENGTH_MAX.
    destruct (Z.ltb_spec (len joke_body) 10).
    + tauto.
    + destruct (Z.ltb_spec 1000 (len joke_body));
        split; intros; try discriminate; lia.
  - unfold private_add_joke, JOKE_LENGTH_MIN, JOKE_LENGTH_MAX.
    destruct (Z.ltb_spec (len joke_body) 10).
    + split; intros; try discriminate; lia.
    + destruct (Z.ltb_spec 1000 (len joke_body));
        split; intros; try discriminate; try lia; reflexivity.
  - apply private_add_joke_success.
  - intros submissions Hok.
    apply (add_jokes_ids submissions Hok empty_db 0%nat). reflexivity.
Qed.

(** ** The registered user of a session *)

Lemma private_get_user_caches
  (db : DB) (chat_id : Z) (user_data : UserData) (u : UserRef) (user_data1 : UserData) :
  private_get_user db chat_id user_data = Ok (u, user_data1) ->
  user_data1 = set_current_user u user_data
  /\ (current_user user_data <> None -> user_data1 = user_data).
Proof.
  unfold private_get_user. destruct user_data as [cu us lj]; simpl.
  destruct cu as [c|].
  - intros H; injection H as <- <-. split; [reflexivity|]. intros _; reflexivity.
  - destruct (query_user db chat_id) as [row|]; [|discriminate].
    intros H; injection H as <- <-. split; [reflexivity|].
    intros Hne. contradiction Hne. reflexivity.
Qed.

Lemma private_get_user_cached
  (db : DB) (chat_id : Z) (u : UserRef) (user_data : UserData) :
  current_user user_data = Some u ->
  private_get_user db chat_id user_data = Ok (u, user_data).
Proof. unfold private_get_user. intros ->. reflexivity. Qed.

(** ** The two conversations *)

Lemma new_user_received_username_returns_None
  (db : DB) (chat_id : Z) (text : str) (user_data : UserData) :
  r_return (new_user_received_username db chat_id text user_data) = None.
Proof.
  unfold new_user_received_username.
  destruct (private_add_user db chat_id text) as [[db1 u]|[]]; reflexivity.
Qed.

Lemma new_joke_received_returns_None
  (db : DB) (chat_id : Z) (text : str) (user_data : UserData) :
  r_return (new_joke_received db chat_id text user_data) = None.
Proof.
  unfold new_joke_received.
  destruct (private_get_user db chat_id user_data) as [[u ud1]|e]; [|reflexivity].
  destruct (private_add_joke db text u) as [[db1 r]|[]]; reflexivity.
Qed.

(** The two prompts open their conversations. *)
Lemma prompts_open_conversations (db : DB) (user_data : UserData) :
  update_state (r_return (new_user_prompt db user_data)) IDLE = AWAITING_USERNAME
  /\ update_state (r_return (new_joke_prompt db user_data)) IDLE = AWAITING_JOKE_BODY.
Proof. split; reflexivity. Qed.

(** C8 (amended). In the registration flow a username with a character
    that is not allowed, a username that is too short and one that is too
    long are each answered with their own message.  In the joke flow, for a
    registered user, a body that is too short and one that is too long are
    each answered with their own message; a chat that is not registered is
    answered with the registration keyboard, whatever the body.  In every
    case nothing is stored, and the handler returns [None], so the
    conversation stays in the state it was in. *)
Theorem validation_failure_keeps_state
  (db : DB) (chat_id : Z) (text : str) (user_data : UserData) (state : option Z) :
  (let r := new_user_received_username db chat_id text user_data in
   update_state (r_return r) state = state
   /\ (forallb username_char text = false ->
         r = mkResult db user_data
               [reply_random "username_invalid_characters"] [] None)
   /\ (forallb username_char text = true -> len text < 5 ->
         r = mkResult db user_data [reply_random "username_too_short"] [] None)
   /\ (forallb username_char text = true -> 20 < len text ->
         r = mkResult db user_data [reply_random "username_too_long"] [] None))
  /\
  (let r := new_joke_received db chat_id text user_data in
   update_state (r_return r) state = state
   /\ (forall u user_data1,
         private_get_user db chat_id user_data = Ok (u, user_data1) ->
         (len text < 10 ->
            r = mkResult db user_data1 [reply_random "joke_too_short"] [] None)
         /\ (1000 < len text ->
               r = mkResult db user_data1 [reply_random "joke_too_long"] [] None))
   /\ (forall e,
         private_get_user db chat_id user_data = Raise e ->
         r = mkResult db user_data [new_user_keyboard] [] None)).
Proof.
  split; cbv zeta.
  - split; [rewrite new_user_received_username_returns_None; reflexivity|].
    unfold new_user_received_username, private_add_user.
    rewrite only_allowed_chars_spec.
    unfold USERNAME_LENGTH_MIN, USERNAME_LENGTH_MAX.
    destruct (forallb username_char text); simpl.
    + split; [discriminate|].
      split; intros _ Hlen.
      * destruct (Z.ltb_spec (len text) 5); [reflexivity|lia].
      * destruct (Z.ltb_spec (len text) 5); [lia|].
        destruct (Z.ltb_spec 20 (len text)); [reflexivity|lia].
    + split; [reflexivity|]. split; discriminate.
  - split; [rewrite new_joke_received_returns_None; reflexivity|]. split.
    + intros u user_data1 Hreg.
      unfold new_joke_received, private_add_joke. rewrite Hreg.
      unfold JOKE_LENGTH_MIN, JOKE_LENGTH_MAX.
      split; intros Hlen.
      * destruct (Z.ltb_spec (len text) 10); [reflexivity|lia].
      * destruct (Z.ltb_spec (len text) 10); [lia|].
        destruct (Z.ltb_spec 1000 (len text)); [reflexivity|lia].
    + intros e Hreg. unfold new_joke_received. rewrite Hreg. reflexivity.
Qed.

(** C4 (the code at the inputs where it departs from the claim).  A
    successful registration and a successful joke submission store the new
    row and answer with the success message and the menu, but the handlers
    return [None]: the conversation stays in AWAITING_USERNAME, respectively
    AWAITING_JOKE_BODY.  Only [cancel], which returns [END], brings a
    conversation back to IDLE. *)
Theorem success_leaves_conversation_open
  (db : DB) (chat_id : Z) (text : str) (user_data : UserData) :
  (query_user db chat_id = None -> username_ok text = true ->
     let r := new_user_received_username db chat_id text user_data in
     r_db r = add_user (mkUser chat_id text 0) db
     /\ r_out r = [reply_random "user_register_success"; menu_keyboard]
     /\ update_state (r_return r) AWAITING_USERNAME = AWAITING_USERNAME)
  /\ (forall u user_data1,
        private_get_user db chat_id user_data = Ok (u, user_data1) ->
        joke_body_ok text = true ->
        let r := new_joke_received db chat_id text user_data in
        (exists new_id, r_db r = add_joke (mkJoke new_id text 0 u) db)
        /\ r_out r = [reply_random "joke_submitted"; menu_keyboard]
        /\ update_state (r_return r) AWAITING_JOKE_BODY = AWAITING_JOKE_BODY)
  /\ update_state (r_return (cancel db user_data)) AWAITING_USERNAME = IDLE
  /\ update_state (r_return (cancel db user_data)) AWAITING_JOKE_BODY = IDLE
  /\ AWAITING_USERNAME <> IDLE
  /\ AWAITING_JOKE_BODY <> IDLE.
Proof.
  split; [|split; [|repeat split; discriminate]].
  - intros Hnew Hok r.
    pose proof (private_add_user_success db chat_id text Hnew Hok) as Hadd.
    subst r. unfold new_user_received_username. rewrite Hadd.
    repeat split.
  - intros u user_data1 Hreg Hok r.
    destruct (private_add_joke_success db text u Hok) as [new_id [Hadd _]].
    subst r. unfold new_joke_received. rewrite Hreg, Hadd.
    split; [exists new_id; reflexivity|]. split; reflexivity.
Qed.

(** ** Voting *)

Lemma hah_is_positive : contains (py "hah") (py "/hah") = true.
Proof. reflexivity. Qed.

Lemma nah_is_negative : contains (py "hah") (py "/nah") = false.
Proof. reflexivity. Qed.

Section Voting.

Variable User_vote_for_joke : DB -> UserRef -> JokeRef -> bool -> Exc DB.

(** After any call of the vote handler by a registered user the session has
    no [last_joke]. *)
Lemma vote_for_joke_clears
  (db : DB) (chat_id : Z) (text : str) (user_data : UserData)
  (u : UserRef) (user_data1 : UserData) :
  private_get_user db chat_id user_data = Ok (u, user_data1) ->
  let r := vote_for_joke User_vote_for_joke db chat_id text user_data in
  current_user (r_user_data r) = Some u /\ last_joke (r_user_data r) = None.
Proof.
  intros Hreg r. subst r.
  destruct (private_get_user_caches _ _ _ _ _ Hreg) as [-> _].
  unfold vote_for_joke. rewrite Hreg. simpl.
  destruct (last_joke user_data) as [joke|] eqn:Elast.
  - destruct (User_vote_for_joke db u joke (contains (py "hah") text))
      as [db1|[]]; split; reflexivity.
  - simpl. split; [reflexivity|exact Elast].
Qed.

(** C1 (amended). For a /hah or /nah message of a registered user: without
    a [last_joke] in the session the handler answers with the
    [joke_no_current] message and changes nothing but the session's cache of
    the user it looked up.  With a [last_joke] it casts the vote of the user
    on that joke, positive for /hah and negative for /nah, keeps the store
    the vote yields (the old store when the vote raises), logs an
    [InvalidVote] without telling the user, deletes [last_joke] and answers
    with the [after_vote] message in every case.  A vote message that
    follows with no display in between is answered with [joke_no_current]. *)
Theorem vote_handler_spec
  (db : DB) (chat_id : Z) (text : str) (user_data : UserData)
  (u : UserRef) (user_data1 : UserData)
  (Hreg : private_get_user db chat_id user_data = Ok (u, user_data1)) :
  let r := vote_for_joke User_vote_for_joke db chat_id text user_data in
  let vote_positive := contains (py "hah") text in
  (user_data1 = set_current_user u user_data
   /\ (current_user user_data <> None -> user_data1 = user_data))
  /\ (last_joke user_data = None ->
        r = mkResult db user_data1 [reply_random "joke_no_current"] [] None)
  /\ (text = py "/hah" -> vote_positive = true)
  /\ (text = py "/nah" -> vote_positive = false)
  /\ (forall joke, last_joke user_data = Some joke ->
        r_db r = match User_vote_for_joke db u joke vote_positive with
                 | Ok db1 => db1
                 | Raise _ => db
                 end
        /\ r_log r = match User_vote_for_joke db u joke vote_positive with
                     | Raise InvalidVote => [InvalidVote]
                     | _ => []
                     end
        /\ r_user_data r = del_last_joke user_data1
        /\ r_out r = [remove_keyboard "after_vote"]
        /\ r_return r = None)
  /\ (forall text2,
        vote_for_joke User_vote_for_joke (r_db r) chat_id text2 (r_user_data r)
        = mkResult (r_db r) (r_user_data r)
            [reply_random "joke_no_current"] [] None).
Proof.
  intros r vote_positive.
  pose proof (private_get_user_caches _ _ _ _ _ Hreg) as Hcache.
  split; [exact Hcache|].
  destruct Hcache as [Hud1 _].
  assert (Hlast1 : last_joke user_data1 = last_joke user_data)
    by (rewrite Hud1; reflexivity).
  split; [|split; [|split; [|split]]].
  - intros Hnone. subst r. unfold vote_for_joke.
    rewrite Hreg, Hlast1, Hnone. reflexivity.
  - intros ->. reflexivity.
  - intros ->. reflexivity.
  - intros joke Hsome. subst r. unfold vote_for_joke.
    rewrite Hreg, Hlast1, Hsome. fold vote_positive.
    destruct (User_vote_for_joke db u joke vote_positive) as [db1|[]];
      repeat split.
  - intros text2.
    destruct (vote_for_joke_clears db chat_id text user_data u user_data1 Hreg)
      as [Hcu Hlj].
    fold r in Hcu, Hlj.
    unfold vote_for_joke at 1.
    rewrite (private_get_user_cached _ _ u _ Hcu), Hlj. reflexivity.
Qed.

End Voting.

(** ** The unseen filter *)

Lemma joke_in_true (joke : Joke) (l : list Joke) :
  In joke l -> joke_in joke l = true.
Proof.
  intros Hin. unfold joke_in. apply existsb_exists.
  exists joke. split; [exact Hin|apply Z.eqb_refl].
Qed.

(** A joke of the repository that the user authored or voted on does not
    pass the filter. *)
Lemma seen_not_unseen (db : DB) (u : UserRef) (joke : Joke) :
  In joke (jokes db) -> seen_by db u joke = true -> unseen db u joke = false.
Proof.
  intros Hin Hseen. unfold seen_by in Hseen. unfold unseen.
  apply orb_true_iff in Hseen. destruct Hseen as [Ha|Hv].
  - rewrite (joke_in_true joke (jokes_submitted db u)).
    + apply andb_false_r.
    + apply filter_In. split; assumption.
  - rewrite (joke_in_true joke (jokes_voted_for db u)).
    + reflexivity.
    + apply filter_In. split; assumption.
Qed.

Lemma unseen_not_seen (db : DB) (u : UserRef) (joke : Joke) :
  In joke (jokes db) -> unseen db u joke = true ->
  author joke <> u /\ has_vote db u (Joke_id joke) = false.
Proof.
  intros Hin Hun.
  destruct (seen_by db u joke) eqn:Hseen.
  - rewrite (seen_not_unseen db u joke Hin Hseen) in Hun. discriminate.
  - unfold seen_by in Hseen. apply orb_false_iff in Hseen.
    destruct Hseen as [Ha Hv]. split; [|exact Hv].
    apply Z.eqb_neq, Ha.
Qed.

(** With ids that identify the jokes, the filter lets through every joke
    the user neither authored nor voted on. *)
Lemma unseen_iff_not_seen (db : DB) (u : UserRef) (joke : Joke) :
  NoDup (map Joke_id (jokes db)) -> In joke (jokes db) ->
  unseen db u joke = negb (seen_by db u joke).
Proof.
  intros Hnd Hin.
  destruct (seen_by db u joke) eqn:Hseen.
  - apply seen_not_unseen; assumption.
  - simpl. unfold seen_by in Hseen. apply orb_false_iff in Hseen.
    destruct Hseen as [Ha Hv].
    assert (Hsame : forall j, In j (jokes db) -> Joke_id j = Joke_id joke -> j = joke).
    { clear - Hnd Hin. induction (jokes db) as [|x l IH]; simpl in *; [tauto|].
      inversion Hnd as [|? ? Hx Hl]; subst.
      intros j [<-|Hj] Hid; destruct Hin as [<-|Hin'];
        try reflexivity; try (apply IH; assumption).
      - contradiction Hx. rewrite Hid. apply in_map, Hin'.
      - contradiction Hx. rewrite <- Hid. apply in_map, Hj. }
    unfold unseen, joke_in.
    assert (Hvoted : existsb (fun j => Joke_id j =? Joke_id joke)
                       (jokes_voted_for db u) = false).
    { destruct (existsb _ (jokes_voted_for db u)) eqn:E; [|reflexivity].
      apply existsb_exists in E. destruct E as [j [Hj Hid]].
      apply filter_In in Hj. destruct Hj as [Hj Hjv].
      apply Z.eqb_eq in Hid. rewrite Hid in Hjv. congruence. }
    assert (Hsub : existsb (fun j => Joke_id j =? Joke_id joke)
                     (jokes_submitted db u) = false).
    { destruct (existsb _ (jokes_submitted db u)) eqn:E; [|reflexivity].
      apply existsb_exists in E. destruct E as [j [Hj Hid]].
      apply filter_In in Hj. destruct Hj as [Hj Hja].
      apply Z.eqb_eq in Hid. rewrite (Hsame j Hj Hid) in Hja. congruence. }
    rewrite Hvoted, Hsub. reflexivity.
Qed.

Lemma find_first {A : Type} (f : A -> bool) (l : list A) :
  match find f l with
  | Some x => exists before after,
                l = before ++ x :: after
                /\ forallb (fun y => negb (f y)) before = true
                /\ f x = true
  | None => forallb (fun y => negb (f y)) l = true
  end.
Proof.
  induction l as [|a l IH]; simpl.
  - reflexivity.
  - destruct (f a) eqn:Ea.
    + exists [], l. repeat split; assumption.
    + destruct (find f l) as [x|].
      * destruct IH as [before [after [-> [Hb Hx]]]].
        exists (a :: before), after. simpl. rewrite Ea. repeat split; assumption.
      * rewrite IH. reflexivity.
Qed.

Lemma len_nil_iff {A : Type} (l : list A) : randint_raises 0 (len l - 1) = true <-> l = [].
Proof.
  unfold randint_raises, len. rewrite Z.ltb_lt.
  destruct l as [|a l]; cbn [List.length]; split; intros H;
    try reflexivity; try discriminate; lia.
Qed.

Lemma skipped_are_seen (db : DB) (u : UserRef) (l : list Joke) :
  NoDup (map Joke_id (jokes db)) ->
  (forall j, In j l -> In j (jokes db)) ->
  forallb (fun j => negb (unseen db u j)) l = true ->
  forallb (seen_by db u) l = true.
Proof.
  intros Hnd Hsub Hall. rewrite forallb_forall in *.
  intros j Hj. specialize (Hall j Hj).
  rewrite (unseen_iff_not_seen db u j Hnd (Hsub j Hj)) in Hall.
  rewrite negb_involutive in Hall. exact Hall.
Qed.

Lemma all_seen_none_unseen (db : DB) (u : UserRef) (l : list Joke) :
  (forall j, In j l -> In j (jokes db)) ->
  forallb (seen_by db u) (jokes db) = true ->
  find (unseen db u) l = None.
Proof.
  intros Hsub Hall. rewrite forallb_forall in Hall.
  destruct (find (unseen db u) l) as [j|] eqn:E; [|reflexivity].
  apply find_some in E. destruct E as [Hj Hun].
  rewrite (seen_not_unseen db u j (Hsub j Hj) (Hall j (Hsub j Hj))) in Hun.
  discriminate.
Qed.

(** ** Displaying jokes *)

Section Display.

Variable shuffle : list Joke -> list Joke.

(** C9 (amended). With an empty joke repository, /random_joke of a
    registered user is answered with the [no_new_jokes] message: the
    [ValueError] of [randint] is caught, the store is unchanged, and the
    session changes at most by the cache of the user that was looked up. *)
Theorem random_joke_on_empty_repository
  (db : DB) (chat_id : Z) (user_data : UserData)
  (u : UserRef) (user_data1 : UserData)
  (Hreg : private_get_user db chat_id user_data = Ok (u, user_data1))
  (Hempty : jokes db = []) :
  display_random_joke shuffle db chat_id user_data
    = mkResult db user_data1 [reply_random "no_new_jokes"] [] None
  /\ user_data1 = set_current_user u user_data
  /\ (current_user user_data <> None -> user_data1 = user_data).
Proof.
  split; [|exact (private_get_user_caches _ _ _ _ _ Hreg)].
  unfold display_random_joke. rewrite Hreg.
  rewrite (proj2 (len_nil_iff (jokes db)) Hempty). reflexivity.
Qed.

(** C5. Whatever the store (so after any sequence of joke additions and
    votes) and whatever order the shuffle draws, /random_joke of a
    registered user either displays a joke of the repository that the user
    did not author and has not voted on, remembering it as [last_joke], or
    answers with the [no_new_jokes] message. *)
Theorem random_joke_is_unseen
  (db : DB) (chat_id : Z) (user_data : UserData)
  (u : UserRef) (user_data1 : UserData)
  (Hreg : private_get_user db chat_id user_data = Ok (u, user_data1))
  (Hshuffle : Permutation (jokes db) (shuffle (jokes db))) :
  let r := display_random_joke shuffle db chat_id user_data in
  (exists random_joke,
      In random_joke (jokes db)
      /\ author random_joke <> u
      /\ has_vote db u (Joke_id random_joke) = false
      /\ joke_in random_joke (jokes_submitted db u) = false
      /\ joke_in random_joke (jokes_voted_for db u) = false
      /\ r = mkResult db (set_last_joke (Joke_id random_joke) user_data1)
               [reply_text (body random_joke); vote_keyboard] [] None)
  \/ r = mkResult db user_data1 [reply_random "no_new_jokes"] [] None.
Proof.
  intros r. subst r. unfold display_random_joke. rewrite Hreg.
  destruct (randint_raises 0 (len (jokes db) - 1)); [right; reflexivity|].
  destruct (find (unseen db u) (shuffle (jokes db))) as [j|] eqn:E;
    [left|right; reflexivity].
  apply find_some in E. destruct E as [Hj Hun].
  assert (Hin : In j (jokes db))
    by (eapply Permutation_in; [apply Permutation_sym, Hshuffle|exact Hj]).
  destruct (unseen_not_seen db u j Hin Hun) as [Ha Hv].
  unfold unseen in Hun. apply andb_true_iff in Hun.
  destruct Hun as [Hnv Hns]. apply negb_true_iff in Hnv, Hns.
  exists j. repeat split; assumption.
Qed.

(** C10. When every joke of the repository is authored by the registered
    user or already voted on by that user, /best_joke sends nothing at all,
    whereas /random_joke answers with the [no_new_jokes] message. *)
Theorem best_joke_silent_when_exhausted
  (db : DB) (chat_id : Z) (user_data : UserData)
  (u : UserRef) (user_data1 : UserData)
  (Hreg : private_get_user db chat_id user_data = Ok (u, user_data1))
  (Hshuffle : Permutation (jokes db) (shuffle (jokes db)))
  (Hseen : forallb (seen_by db u) (jokes db) = true) :
  display_best_joke db chat_id user_data = mkResult db user_data1 [] [] None
  /\ r_out (display_best_joke db chat_id user_data) = []
  /\ display_random_joke shuffle db chat_id user_data
     = mkResult db user_data1 [reply_random "no_new_jokes"] [] None.
Proof.
  assert (Hbest : display_best_joke db chat_id user_data
                  = mkResult db user_data1 [] [] None).
  { unfold display_best_joke. rewrite Hreg.
    rewrite (all_seen_none_unseen db u (order_by vote_count (jokes db))).
    - reflexivity.
    - intros j. apply order_by_In.
    - exact Hseen. }
  split; [exact Hbest|]. split; [rewrite Hbest; reflexivity|].
  unfold display_random_joke. rewrite Hreg.
  destruct (randint_raises 0 (len (jokes db) - 1)); [reflexivity|].
  rewrite (all_seen_none_unseen db u (shuffle (jokes db))).
  - reflexivity.
  - intros j Hj. eapply Permutation_in; [apply Permutation_sym, Hshuffle|exact Hj].
  - exact Hseen.
Qed.

End Display.

(** C7. For a registered user, /best_joke goes through the jokes in
    ascending order of [vote_count] and displays the first one that the user
    neither authored nor voted on: every joke before it in that order is
    authored by the user or voted on by the user.  (When there is no such
    joke nothing is displayed.) *)
Theorem best_joke_is_first_unseen
  (db : DB) (chat_id : Z) (user_data : UserData)
  (u : UserRef) (user_data1 : UserData)
  (Hreg : private_get_user db chat_id user_data = Ok (u, user_data1))
  (Hids : NoDup (map Joke_id (jokes db))) :
  let jokes_by_score := order_by vote_count (jokes db) in
  let r := display_best_joke db chat_id user_data in
  Permutation (jokes db) jokes_by_score
  /\ ascending vote_count jokes_by_score
  /\ ((exists joke before after,
          jokes_by_score = before ++ joke :: after
          /\ forallb (seen_by db u) before = true
          /\ seen_by db u joke = false
          /\ r = mkResult db user_data1 [reply_text (body joke)] [] None)
      \/ (forallb (seen_by db u) jokes_by_score = true
          /\ r = mkResult db user_data1 [] [] None)).
Proof.
  intros jokes_by_score r.
  split; [apply order_by_perm|]. split; [apply order_by_ascending|].
  subst r. unfold display_best_joke. rewrite Hreg. fold jokes_by_score.
  assert (Hsub : forall j, In j jokes_by_score -> In j (jokes db))
    by (intros j; apply order_by_In).
  pose proof (find_first (unseen db u) jokes_by_score) as Hfind.
  destruct (find (unseen db u) jokes_by_score) as [joke|].
  - left. destruct Hfind as [before [after [E [Hbefore Hjoke]]]].
    exists joke, before, after.
    assert (Hjin : In joke (jokes db))
      by (apply Hsub; rewrite E; apply in_or_app; right; left; reflexivity).
    split; [exact E|]. split; [|split; [|reflexivity]].
    + apply (skipped_are_seen db u before Hids); [|exact Hbefore].
      intros j Hj. apply Hsub. rewrite E. apply in_or_app; left; exact Hj.
    + rewrite (unseen_iff_not_seen db u joke Hids Hjin) in Hjoke.
      apply negb_true_iff, Hjoke.
  - right. split; [|reflexivity].
    apply (skipped_are_seen db u jokes_by_score Hids Hsub Hfind).
Qed.

(** ** Ranking *)

Lemma enumerate_from_nth {A : Type} (l : list A) :
  forall (start : Z) (i : nat) (x : A),
    nth_error l i = Some x ->
    nth_error (enumerate_from start l) i = Some (start + Z.of_nat i, x).
Proof.
  induction l as [|a l IH]; intros start i x Hx.
  - destruct i; discriminate.
  - destruct i as [|i]; simpl in *.
    + injection Hx as <-. f_equal. f_equal. lia.
    + rewrite (IH (start + 1) i x Hx). f_equal. f_equal. lia.
Qed.

Lemma enumerate_from_length {A : Type} (l : list A) (start : Z) :
  List.length (enumerate_from start l) = List.length l.
Proof.
  revert start. induction l as [|a l IH]; intros start; simpl; [reflexivity|].
  rewrite IH. reflexivity.
Qed.

(** [l.index] gives the position of the first element that passes the test,
    the element [find] returns. *)
Lemma index_of_spec {A : Type} (is_x : A -> bool) (l : list A) :
  match index_of is_x l with
  | Some i =>
      0 <= i
      /\ exists x, nth_error l (Z.to_nat i) = Some x
                   /\ is_x x = true
                   /\ find is_x l = Some x
                   /\ forall k y, (k < Z.to_nat i)%nat ->
                                  nth_error l k = Some y -> is_x y = false
  | None => find is_x l = None
  end.
Proof.
  induction l as [|a l IH]; simpl.
  - reflexivity.
  - destruct (is_x a) eqn:Ea.
    + split; [lia|]. exists a. simpl. repeat split; try assumption.
      intros k y Hk. lia.
    + destruct (index_of is_x l) as [i|]; [|exact IH].
      destruct IH as [Hi [x [Hnth [Hx [Hfind Hbefore]]]]].
      split; [lia|]. exists x.
      replace (Z.to_nat (i + 1)) with (S (Z.to_nat i)) by lia.
      simpl. repeat split; try assumption.
      intros k y Hk Hy. destruct k as [|k]; simpl in Hy.
      * injection Hy as <-. exact Ea.
      * apply (Hbefore k y); [lia|exact Hy].
Qed.

(** C6. For a registered user, /top10 lists the first 10 rows of the users
    in ascending order of score, numbered from 1, each with its username and
    score; the rank /profile shows is the 1-based position of the user's row
    in the same ascending order. *)
Theorem top10_and_rank
  (get_average_score : DB -> UserRef -> Q)
  (db : DB) (chat_id : Z) (user_data : UserData)
  (u : UserRef) (user_data1 : UserData) (row : User)
  (Hreg : private_get_user db chat_id user_data = Ok (u, user_data1))
  (Hrow : query_user db u = Some row) :
  let all_users := order_by score (users db) in
  Permutation (users db) all_users
  /\ ascending score all_users
  /\ (exists lines,
        top10 db chat_id user_data
          = mkResult db user_data1 [reply_top10 lines] [] None
        /\ List.length lines = List.length (firstn 10 all_users)
        /\ forall i row_i,
             nth_error (firstn 10 all_users) i = Some row_i ->
             nth_error lines i
               = Some (Z.of_nat i + 1, username row_i, score row_i))
  /\ (exists rank me,
        profile get_average_score db chat_id user_data
          = Ok (mkResult db user_data1
                  [reply_profile (username me) rank (score me)
                     (len (jokes_submitted db u)) (get_average_score db u)]
                  [] None)
        /\ 1 <= rank
        /\ nth_error all_users (Z.to_nat (rank - 1)) = Some me
        /\ User_id me = u
        /\ forall k other,
             (k < Z.to_nat (rank - 1))%nat ->
             nth_error all_users k = Some other -> User_id other <> u).
Proof.
  intros all_users.
  split; [apply order_by_perm|]. split; [apply order_by_ascending|]. split.
  - eexists. unfold top10. rewrite Hreg. fold all_users.
    split; [reflexivity|]. split.
    + rewrite length_map. apply enumerate_from_length.
    + intros i row_i Hi.
      rewrite nth_error_map. unfold enumerate.
      rewrite (enumerate_from_nth _ 0 i row_i Hi). simpl.
      replace (Z.of_nat i + 1) with (0 + Z.of_nat i + 1) by lia. reflexivity.
  - unfold profile. rewrite Hreg. fold all_users.
    pose proof (index_of_spec (fun r => User_id r =? u) all_users) as Hindex.
    destruct (index_of (fun r => User_id r =? u) all_users) as [i|].
    + destruct Hindex as [Hi [me [Hnth [Hme [Hfind Hbefore]]]]].
      rewrite Hfind. exists (i + 1), me.
      replace (i + 1 - 1) with i by lia.
      split; [reflexivity|]. split; [lia|]. split; [exact Hnth|].
      split; [apply Z.eqb_eq, Hme|].
      intros k other Hk Hother. apply Z.eqb_neq. exact (Hbefore k other Hk Hother).
    + exfalso. unfold query_user in Hrow. apply find_some in Hrow.
      destruct Hrow as [Hin Hid].
      assert (Hin' : In row all_users) by (apply order_by_In; exact Hin).
      pose proof (find_none _ _ Hindex row Hin') as Hno. simpl in Hno. congruence.
Qed.

(** ** Seen jokes stay hidden *)

Lemma cast_records_vote (db db1 : DB) (u : UserRef) (joke : JokeRef) (p : bool) :
  spec_vote_for_joke db u joke p = Ok db1 -> has_vote db1 u joke = true.
Proof.
  unfold spec_vote_for_joke.
  destruct (has_vote db u joke || _); [discriminate|].
  intros H; injection H as <-.
  unfold has_vote; simpl. rewrite existsb_app. simpl.
  rewrite !Z.eqb_refl. simpl. apply orb_true_r.
Qed.

Lemma perform_keeps_votes (db : DB) (a : Action) (u : UserRef) (joke : JokeRef) :
  has_vote db u joke = true -> has_vote (perform db a) u joke = true.
Proof.
  intros Hv. destruct a as [chat_id name|who joke_body|who j p]; simpl.
  - unfold private_add_user.
    repeat match goal with
           | |- context [if ?b then _ else _] => destruct b
           | |- context [match query_user ?d ?i with _ => _ end] =>
               destruct (query_user d i)
           end; exact Hv.
  - unfold private_add_joke.
    repeat match goal with
           | |- context [if ?b then _ else _] => destruct b
           end; exact Hv.
  - unfold spec_vote_for_joke.
    destruct (has_vote db who j || _); [exact Hv|].
    unfold has_vote in *; simpl. rewrite existsb_app, Hv. reflexivity.
Qed.

Lemma perform_keeps_authored (db : DB) (a : Action) (u : UserRef) (joke : JokeRef) :
  authored db u joke = true -> authored (perform db a) u joke = true.
Proof.
  intros Ha. destruct a as [chat_id name|who joke_body|who j p]; simpl.
  - unfold private_add_user.
    repeat match goal with
           | |- context [if ?b then _ else _] => destruct b
           | |- context [match query_user ?d ?i with _ => _ end] =>
               destruct (query_user d i)
           end; exact Ha.
  - unfold private_add_joke.
    repeat match goal with
           | |- context [if ?b then _ else _] => destruct b
           end; try exact Ha.
    unfold authored in *; simpl. rewrite existsb_app, Ha. reflexivity.
  - unfold spec_vote_for_joke.
    destruct (has_vote db who j || _); [exact Ha|].
    unfold authored in *; simpl.
    apply existsb_exists in Ha. destruct Ha as [x [Hx Hid]].
    apply existsb_exists.
    eexists. split; [apply in_map, Hx|].
    destruct (Joke_id x =? j); exact Hid.
Qed.

Lemma history_keeps_seen (actions : list Action) :
  forall (db : DB) (u : UserRef) (joke : JokeRef),
    has_vote db u joke = true \/ authored db u joke = true ->
    has_vote (history db actions) u joke = true
    \/ authored (history db actions) u joke = true.
Proof.
  unfold history.
  induction actions as [|a actions IH]; intros db u joke H; simpl; [exact H|].
  apply IH. destruct H as [H|H].
  - left. apply perform_keeps_votes, H.
  - right. apply perform_keeps_authored, H.
Qed.

(** A joke the user has voted on or authored is never displayed to that user
    by /random_joke, whatever registrations, submissions and votes follow. *)
Lemma seen_jokes_stay_hidden
  (shuffle : list Joke -> list Joke)
  (db : DB) (actions : list Action) (u : UserRef) (seen : JokeRef)
  (chat_id : Z) (user_data user_data1 : UserData) :
  has_vote db u seen = true \/ authored db u seen = true ->
  let db1 := history db actions in
  private_get_user db1 chat_id user_data = Ok (u, user_data1) ->
  Permutation (jokes db1) (shuffle (jokes db1)) ->
  forall joke,
    find (unseen db1 u) (shuffle (jokes db1)) = Some joke ->
    display_random_joke shuffle db1 chat_id user_data
      = mkResult db1 (set_last_joke (Joke_id joke) user_data1)
          [reply_text (body joke); vote_keyboard] [] None
    /\ Joke_id joke <> seen.
Proof.
  intros Hseen db1 Hreg Hshuffle joke Hfind.
  assert (Hjokes : jokes db1 <> []).
  { intros E. rewrite E in Hshuffle. apply Permutation_nil in Hshuffle.
    rewrite E, Hshuffle in Hfind. discriminate. }
  split.
  - unfold display_random_joke. rewrite Hreg.
    destruct (randint_raises 0 (len (jokes db1) - 1)) eqn:Er.
    + apply len_nil_iff in Er. contradiction.
    + rewrite Hfind. reflexivity.
  - apply find_some in Hfind. destruct Hfind as [Hj Hun].
    assert (Hin : In joke (jokes db1))
      by (eapply Permutation_in; [apply Permutation_sym, Hshuffle|exact Hj]).
    intros <-.
    destruct (history_keeps_seen actions db u (Joke_id joke) Hseen) as [Hv|Ha];
      fold db1 in Hv || fold db1 in Ha.
    + destruct (unseen_not_seen db1 u joke Hin Hun) as [_ Hnv]. congruence.
    + unfold unseen in Hun. apply andb_true_iff in Hun. destruct Hun as [_ Hns].
      apply negb_true_iff in Hns.
      unfold authored in Ha. apply existsb_exists in Ha.
      destruct Ha as [x [Hx Hid]]. apply andb_true_iff in Hid.
      destruct Hid as [Hid Hau].
      assert (Hsub : joke_in joke (jokes_submitted db1 u) = true).
      { unfold joke_in. apply existsb_exists. exists x. split; [|exact Hid].
        apply filter_In. split; assumption. }
      congruence.
Qed.

(** * The theorems at concrete inputs *)

(** Scenario B of the specification: "bo" is too short, "alice" is
    accepted; "b!" is short too, but its character is refused first. *)
Lemma register_user_validation_witness :
  query_user empty_db 1 = None
  /\ private_add_user empty_db 1 (py "alice") = Ok (add_user alice empty_db, alice)
  /\ private_add_user empty_db 1 (py "bo") = Raise TooShort
  /\ private_add_user empty_db 1 (py "b!") = Raise InvalidCharacters.
Proof.
  split; [reflexivity|].
  destruct (register_user_validation empty_db 1 (py "alice") eq_refl)
    as (_ & _ & _ & _ & Hok).
  destruct (register_user_validation empty_db 1 (py "bo") eq_refl)
    as (_ & _ & Hshort & _).
  destruct (register_user_validation empty_db 1 (py "b!") eq_refl)
    as (_ & Hchars & _).
  split; [apply Hok; reflexivity|].
  split; [apply Hshort; split; reflexivity|].
  apply Hchars; reflexivity.
Defined.

(** [private_add_joke] stores the joke and returns [None]: no joke object
    reaches the caller. *)
Lemma add_joke_returns_None :
  joke_body_ok chicken = true
  /\ private_add_joke empty_db chicken 1
     = Ok (add_joke (mkJoke 0 chicken 0 1) empty_db, None)
  /\ (forall db1 j, private_add_joke empty_db chicken 1 <> Ok (db1, Some j)).
Proof.
  split; [reflexivity|]. split; [reflexivity|].
  intros db1 j H. vm_compute in H. discriminate.
Qed.

(** Scenario A of the specification, and ids 0, 1, 2 for three jokes. *)
Lemma three_jokes_get_ids_0_1_2 :
  exists db,
    add_jokes empty_db [(chicken, 1); (knock, 2); (chicken, 1)] = Ok db
    /\ map Joke_id (jokes db) = [0; 1; 2]
    /\ map author (jokes db) = [1; 2; 1].
Proof. eexists. split; [reflexivity|]. split; reflexivity. Qed.

(** The failing input of C4: user 1, in AWAITING_USERNAME, sends "alice".
    The user is registered and the conversation stays open; the next text
    runs into the assertion of [private_add_user] and gets no answer. *)
Lemma registration_does_not_end_the_conversation :
  let r := new_user_received_username empty_db 1 (py "alice") no_user_data in
  r_db r = add_user alice empty_db
  /\ r_return r = None
  /\ update_state (r_return r) AWAITING_USERNAME = Some USERNAME_RECEIVED
  /\ private_add_user (r_db r) 1 (py "hello") = Raise AssertionError
  /\ new_user_received_username (r_db r) 1 (py "hello") (r_user_data r)
     = mkResult (r_db r) (r_user_data r) [] [] None.
Proof. repeat split. Qed.

(** The same for a joke: after a successful submission the conversation is
    still in AWAITING_JOKE_BODY, and the next text of 10 characters or more
    is stored as one more joke. *)
Lemma submission_does_not_end_the_conversation :
  let r := new_joke_received only_users_db 1 chicken no_user_data in
  map Joke_id (jokes (r_db r)) = [0]
  /\ update_state (r_return r) AWAITING_JOKE_BODY = Some JOKE_RECEIVED
  /\ map Joke_id
       (jokes (r_db (new_joke_received (r_db r) 1 (py "thanks a lot!")
                       (r_user_data r))))
     = [0; 1].
Proof. repeat split. Qed.

(** A registered user with a fresh session and nothing to vote on: the
    answer is [joke_no_current], and the session now caches the user. *)
Lemma vote_without_joke_fills_cache :
  let r := vote_for_joke spec_vote_for_joke only_users_db 1 (py "/hah") no_user_data in
  last_joke no_user_data = None
  /\ r_out r = [reply_random "joke_no_current"]
  /\ r_db r = only_users_db
  /\ r_user_data r = mkUserData (Some 1) None None
  /\ r_user_data r <> no_user_data.
Proof. repeat split. discriminate. Qed.

Lemma vote_handler_spec_witness :
  private_get_user sample_db 3 shown_joke1
    = Ok (3, mkUserData (Some 3) None (Some 1))
  /\ r_user_data (vote_for_joke spec_vote_for_joke sample_db 3 (py "/hah") shown_joke1)
     = mkUserData (Some 3) None None
  /\ r_out (vote_for_joke spec_vote_for_joke sample_db 3 (py "/hah") shown_joke1)
     = [remove_keyboard "after_vote"].
Proof.
  split; [reflexivity|].
  destruct (vote_handler_spec spec_vote_for_joke sample_db 3 (py "/hah")
              shown_joke1 3 (mkUserData (Some 3) None (Some 1)) eq_refl)
    as (_ & _ & _ & _ & Hvote & _).
  destruct (Hvote 1 eq_refl) as (_ & _ & Hud & Hout & _).
  split; [exact Hud|exact Hout].
Defined.

(** Scenario C of the specification: carol is shown [joke1] and says /hah;
    the vote count goes from 0 to 1 and the vote is recorded.  bobby, the
    author, gets the same answer, his vote is logged as invalid and the
    store is unchanged. *)
Lemma vote_examples :
  let r := vote_for_joke spec_vote_for_joke sample_db 3 (py "/hah") shown_joke1 in
  let r' := vote_for_joke spec_vote_for_joke sample_db 2 (py "/hah") shown_joke1 in
  map vote_count (jokes (r_db r)) = [2; 1; -1]
  /\ has_vote (r_db r) 3 1 = true
  /\ r_log r = []
  /\ r_db r' = sample_db
  /\ r_log r' = [InvalidVote]
  /\ r_out r' = r_out r
  /\ last_joke (r_user_data r') = None.
Proof. repeat split. Qed.

(** With no joke at all the answer is [no_new_jokes], and the fresh session
    now caches the user. *)
Lemma random_joke_on_empty_fills_cache :
  let r := display_random_joke (fun l => l) only_users_db 1 no_user_data in
  jokes only_users_db = []
  /\ r_out r = [reply_random "no_new_jokes"]
  /\ r_db r = only_users_db
  /\ r_user_data r = mkUserData (Some 1) None None
  /\ r_user_data r <> no_user_data.
Proof. repeat split. discriminate. Qed.

Lemma random_joke_on_empty_repository_witness :
  private_get_user only_users_db 1 no_user_data
    = Ok (1, mkUserData (Some 1) None None)
  /\ jokes only_users_db = []
  /\ display_random_joke (@rev Joke) only_users_db 1 no_user_data
     = mkResult only_users_db (mkUserData (Some 1) None None)
         [reply_random "no_new_jokes"] [] None.
Proof.
  split; [reflexivity|]. split; [reflexivity|].
  apply (random_joke_on_empty_repository (@rev Joke) only_users_db 1
           no_user_data 1 (mkUserData (Some 1) None None) eq_refl eq_refl).
Defined.

(** carol has voted on [joke0]; with the jokes drawn in reverse order she
    is shown [joke2]. *)
Lemma random_joke_is_unseen_witness :
  private_get_user sample_db 3 no_user_data
    = Ok (3, mkUserData (Some 3) None None)
  /\ Permutation (jokes sample_db) (rev (jokes sample_db))
  /\ ((exists random_joke,
          In random_joke (jokes sample_db)
          /\ author random_joke <> 3
          /\ has_vote sample_db 3 (Joke_id random_joke) = false
          /\ joke_in random_joke (jokes_submitted sample_db 3) = false
          /\ joke_in random_joke (jokes_voted_for sample_db 3) = false
          /\ display_random_joke (@rev Joke) sample_db 3 no_user_data
             = mkResult sample_db
                 (set_last_joke (Joke_id random_joke) (mkUserData (Some 3) None None))
                 [reply_text (body random_joke); vote_keyboard] [] None)
      \/ display_random_joke (@rev Joke) sample_db 3 no_user_data
         = mkResult sample_db (mkUserData (Some 3) None None)
             [reply_random "no_new_jokes"] [] None).
Proof.
  split; [reflexivity|]. split; [apply Permutation_rev|].
  apply (random_joke_is_unseen (@rev Joke) sample_db 3 no_user_data 3
           (mkUserData (Some 3) None None) eq_refl (Permutation_rev _)).
Defined.

Lemma random_joke_example :
  display_random_joke (@rev Joke) sample_db 3 no_user_data
  = mkResult sample_db (mkUserData (Some 3) None (Some 2))
      [reply_text (body joke2); vote_keyboard] [] None.
Proof. reflexivity. Qed.

Lemma best_joke_silent_when_exhausted_witness :
  private_get_user exhausted_db 1 no_user_data
    = Ok (1, mkUserData (Some 1) None None)
  /\ forallb (seen_by exhausted_db 1) (jokes exhausted_db) = true
  /\ r_out (display_best_joke exhausted_db 1 no_user_data) = []
  /\ r_out (display_random_joke (@rev Joke) exhausted_db 1 no_user_data)
     = [reply_random "no_new_jokes"].
Proof.
  split; [reflexivity|]. split; [reflexivity|].
  destruct (best_joke_silent_when_exhausted (@rev Joke) exhausted_db 1
              no_user_data 1 (mkUserData (Some 1) None None)
              eq_refl (Permutation_rev _) eq_refl) as (_ & Hbest & Hrandom).
  split; [exact Hbest|]. rewrite Hrandom. reflexivity.
Defined.

Lemma sample_joke_ids_NoDup : NoDup (map Joke_id (jokes sample_db)).
Proof.
  simpl. repeat constructor; simpl; intros H;
    repeat (destruct H as [H|H]; [discriminate|]); exact H.
Defined.

(** alice authored [joke2] (-1 votes) and [joke0] (2 votes): she is shown
    [joke1] (0 votes), the first in ascending order that she has not seen. *)
Lemma best_joke_is_first_unseen_witness :
  private_get_user sample_db 1 no_user_data
    = Ok (1, mkUserData (Some 1) None None)
  /\ NoDup (map Joke_id (jokes sample_db))
  /\ order_by vote_count (jokes sample_db) = [joke2; joke1; joke0]
  /\ ascending vote_count (order_by vote_count (jokes sample_db))
  /\ display_best_joke sample_db 1 no_user_data
     = mkResult sample_db (mkUserData (Some 1) None None)
         [reply_text (body joke1)] [] None.
Proof.
  split; [reflexivity|]. split; [exact sample_joke_ids_NoDup|].
  split; [reflexivity|].
  destruct (best_joke_is_first_unseen sample_db 1 no_user_data 1
              (mkUserData (Some 1) None None) eq_refl sample_joke_ids_NoDup)
    as (_ & Hsorted & _).
  split; [exact Hsorted|reflexivity].
Defined.

(** carol (-2), alice (0), bobby (3): alice has rank 2. *)
Lemma top10_and_rank_witness :
  private_get_user sample_db 1 no_user_data
    = Ok (1, mkUserData (Some 1) None None)
  /\ query_user sample_db 1 = Some alice
  /\ ascending score (order_by score (users sample_db))
  /\ r_out (top10 sample_db 1 no_user_data)
     = [reply_top10 [(1, py "carol", -2); (2, py "alice", 0); (3, py "bobby", 3)]]
  /\ option_map r_out
       (match profile spec_get_average_score sample_db 1 no_user_data with
        | Ok r => Some r
        | Raise _ => None
        end)
     = Some [reply_profile (py "alice") 2 0 2 (1 # 2)].
Proof.
  split; [reflexivity|]. split; [reflexivity|].
  destruct (top10_and_rank spec_get_average_score sample_db 1 no_user_data 1
              (mkUserData (Some 1) None None) alice eq_refl eq_refl)
    as (_ & Hsorted & _).
  split; [exact Hsorted|]. split; reflexivity.
Defined.

(** * Further properties of the handlers *)

(** ** The responses file *)

Lemma choice_some {A : Type} (draw : nat) (l : list A) :
  l <> [] -> exists x, choice draw l = Some x /\ In x l.
Proof.
  intros Hne. destruct l as [|a l]; [contradiction|].
  unfold choice.
  destruct (nth_error (a :: l) (Nat.modulo draw (List.length (a :: l)))) as [x|] eqn:E.
  - exists x. split; [reflexivity|]. eapply nth_error_In, E.
  - apply nth_error_None in E.
    pose proof (Nat.mod_upper_bound draw (List.length (a :: l))) as Hb.
    simpl in *. lia.
Qed.

(** X1. A response is looked up under its key.  Both lookups end in
    [exit()] exactly when the key is missing and in an [IndexError] exactly
    when the key holds an empty list; the random response is always one of
    the texts stored under the key; the one response is the random response
    of the draw 0, and with a single text under the key the two agree
    whatever is drawn. *)
Theorem one_response_is_a_random_response
  (responses : Responses) (draw : nat) (state : string) :
  (private_get_random_response responses draw state = Exit
     <-> dict_get state responses = None)
  /\ (private_get_one_response responses state = Exit
        <-> dict_get state responses = None)
  /\ (private_get_random_response responses draw state = NoVariant
        <-> dict_get state responses = Some [])
  /\ (private_get_one_response responses state = NoVariant
        <-> dict_get state responses = Some [])
  /\ (forall text,
        private_get_random_response responses draw state = Got text ->
        exists variants,
          dict_get state responses = Some variants /\ In text variants)
  /\ private_get_random_response responses 0 state
     = private_get_one_response responses state
  /\ (forall only,
        dict_get state responses = Some [only] ->
        private_get_random_response responses draw state = Got only
        /\ private_get_one_response responses state = Got only).
Proof.
  unfold private_get_random_response, private_get_one_response.
  destruct (dict_get state responses) as [variants|].
  - destruct variants as [|v variants].
    + simpl.
      split; [split; discriminate|]. split; [split; discriminate|].
      split; [split; reflexivity|]. split; [split; reflexivity|].
      split; [discriminate|]. split; [reflexivity|]. discriminate.
    + destruct (choice_some draw (v :: variants)) as [x [Hx Hin]];
        [discriminate|].
      rewrite Hx.
      split; [split; discriminate|]. split; [split; discriminate|].
      split; [split; discriminate|]. split; [split; discriminate|].
      split; [|split].
      * intros text H. injection H as <-. exists (v :: variants). auto.
      * unfold choice. rewrite Nat.Div0.mod_0_l. reflexivity.
      * intros only H. injection H as -> ->.
        destruct Hin as [<-|[]]. split; reflexivity.
  - split; [split; reflexivity|]. split; [split; reflexivity|].
    split; [split; discriminate|]. split; [split; discriminate|].
    split; [discriminate|]. split; [reflexivity|]. discriminate.
Qed.

(** ** Looking up the user *)

(** X2. Once [private_get_user] has found the user of a session, every
    later lookup in that session returns the same user from the cache and
    leaves the session as it is, whatever the chat id and whatever the store
    holds by then: the cached user is never checked again. *)
Theorem private_get_user_sticky
  (db : DB) (chat_id : Z) (user_data : UserData)
  (u : UserRef) (user_data1 : UserData)
  (Hfound : private_get_user db chat_id user_data = Ok (u, user_data1)) :
  current_user user_data1 = Some u
  /\ forall db' chat_id',
       private_get_user db' chat_id' user_data1 = Ok (u, user_data1).
Proof.
  assert (Hcu : current_user user_data1 = Some u).
  { unfold private_get_user in Hfound.
    destruct (current_user user_data) as [c|] eqn:E.
    - injection Hfound as <- <-. exact E.
    - destruct (query_user db chat_id); [|discriminate].
      injection Hfound as <- <-. reflexivity. }
  split; [exact Hcu|].
  intros db' chat_id'. unfold private_get_user. rewrite Hcu. reflexivity.
Qed.

Lemma private_get_user_unknown (db : DB) (chat_id : Z) (user_data : UserData) :
  current_user user_data = None -> query_user db chat_id = None ->
  private_get_user db chat_id user_data = Raise UserDoesNotExist.
Proof. unfold private_get_user. intros -> ->. reflexivity. Qed.

Section Gate.

Variable User_vote_for_joke : DB -> UserRef -> JokeRef -> bool -> Exc DB.
Variable get_average_score : DB -> UserRef -> Q.
Variable shuffle : list Joke -> list Joke.
Variable User_get_jokes_voted_positive : DB -> UserRef -> list Joke.
Variable draw : nat.

(** X3. A chat that is neither cached in its session nor stored as a user
    gets the registration keyboard, and nothing else, from every handler
    that needs a user: the menu, the joke text of the joke conversation,
    /random_joke, /random_favorite_joke, /best_joke, /hah and /nah, /top10
    and /profile.  The store and the session stay as they are, and no
    handler raises. *)
Theorem unregistered_gets_registration_keyboard
  (db : DB) (chat_id : Z) (text : str) (user_data : UserData)
  (Hcache : current_user user_data = None)
  (Hstore : query_user db chat_id = None) :
  let prompt := mkResult db user_data [new_user_keyboard] [] None in
  menu db chat_id user_data = prompt
  /\ new_joke_received db chat_id text user_data = prompt
  /\ display_random_joke shuffle db chat_id user_data = prompt
  /\ display_random_favorite_joke User_get_jokes_voted_positive draw
       db chat_id user_data = prompt
  /\ display_best_joke db chat_id user_data = prompt
  /\ vote_for_joke User_vote_for_joke db chat_id text user_data = prompt
  /\ top10 db chat_id user_data = prompt
  /\ profile get_average_score db chat_id user_data = Ok prompt.
Proof.
  intros prompt.
  pose proof (private_get_user_unknown db chat_id user_data Hcache Hstore)
    as Hunknown.
  unfold menu, new_joke_received, display_random_joke,
    display_random_favorite_joke, display_best_joke, vote_for_joke, top10,
    profile.
  rewrite Hunknown. repeat split.
Qed.

End Gate.

(** ** Registration, once more *)

Lemma private_add_user_inv (db db1 : DB) (user_id : Z) (name : str) (u : User) :
  private_add_user db user_id name = Ok (db1, u) ->
  query_user db user_id = None /\ username_ok name = true
  /\ u = mkUser user_id name 0 /\ db1 = add_user u db.
Proof.
  unfold private_add_user, username_ok.
  rewrite only_allowed_chars_spec.
  unfold USERNAME_LENGTH_MIN, USERNAME_LENGTH_MAX.
  destruct (forallb username_char name); simpl; [|discriminate].
  destruct (Z.ltb_spec (len name) 5) as [Hlt|Hmin]; [discriminate|].
  destruct (Z.ltb_spec 20 (len name)) as [Hgt|Hmax]; [discriminate|].
  destruct (query_user db user_id); [discriminate|].
  intros Hres; injection Hres as <- <-.
  repeat split.
  rewrite andb_true_r. apply andb_true_iff. split; apply Z.leb_le; lia.
Qed.

Lemma query_user_other (db : DB) (u : User) (other : Z) :
  other <> User_id u -> query_user (add_user u db) other = query_user db other.
Proof.
  intros Hne. unfold query_user, add_user; simpl.
  induction (users db) as [|x l IH]; simpl.
  - destruct (Z.eqb_spec (User_id u) other); [congruence|reflexivity].
  - destruct (User_id x =? other); [reflexivity|exact IH].
Qed.

Lemma query_user_None_fresh (db : DB) (user_id : Z) :
  query_user db user_id = None -> ~ In user_id (map User_id (users db)).
Proof.
  unfold query_user. intros Hnone Hin.
  apply in_map_iff in Hin. destruct Hin as [x [Hid Hx]].
  pose proof (find_none _ _ Hnone x Hx) as H. simpl in H.
  apply Z.eqb_neq in H. contradiction.
Qed.

(** X4. After a successful registration the session holds the new user
    under ['user'] and still nothing under ['current_user'], so the next
    handler looks the chat up in the store, finds the new row and caches
    it: the menu, which answered with the registration keyboard before, now
    answers with the menu keyboard.  The lookups of all other identities
    are as before. *)
Theorem registration_then_menu
  (db : DB) (chat_id : Z) (text : str) (user_data : UserData)
  (Hnew : query_user db chat_id = None)
  (Hok : username_ok text = true)
  (Hcache : current_user user_data = None) :
  let r := new_user_received_username db chat_id text user_data in
  menu db chat_id user_data = mkResult db user_data [new_user_keyboard] [] None
  /\ user (r_user_data r) = Some chat_id
  /\ current_user (r_user_data r) = None
  /\ query_user (r_db r) chat_id = Some (mkUser chat_id text 0)
  /\ menu (r_db r) chat_id (r_user_data r)
     = mkResult (r_db r) (set_current_user chat_id (r_user_data r))
         [menu_keyboard] [] None
  /\ forall other, other <> chat_id ->
       query_user (r_db r) other = query_user db other.
Proof.
  intros r. subst r. unfold new_user_received_username.
  rewrite (private_add_user_success db chat_id text Hnew Hok). simpl.
  assert (Hq : query_user (add_user (mkUser chat_id text 0) db) chat_id
               = Some (mkUser chat_id text 0)).
  { unfold query_user, add_user; simpl.
    apply find_app_new; [exact Hnew|]. simpl. apply Z.eqb_refl. }
  split.
  { unfold menu. rewrite (private_get_user_unknown _ _ _ Hcache Hnew). reflexivity. }
  split; [reflexivity|]. split; [exact Hcache|]. split; [exact Hq|]. split.
  - unfold menu, private_get_user. simpl. rewrite Hcache, Hq. reflexivity.
  - intros other Hne. apply query_user_other. simpl. exact Hne.
Qed.

(** X5. An identity that is already stored and sends an acceptable username
    in the registration conversation gets no answer at all: the assertion
    of [private_add_user] fails, the [return] of the [finally] clause drops
    the error, and store and session stay as they are. *)
Theorem registered_identity_gets_no_answer
  (db : DB) (chat_id : Z) (text : str) (user_data : UserData) (row : User)
  (Hstored : query_user db chat_id = Some row)
  (Hok : username_ok text = true) :
  private_add_user db chat_id text = Raise AssertionError
  /\ new_user_received_username db chat_id text user_data
     = mkResult db user_data [] [] None.
Proof.
  assert (H : private_add_user db chat_id text = Raise AssertionError).
  { unfold username_ok in Hok.
    apply andb_true_iff in Hok. destruct Hok as [Hlen Hchars].
    apply andb_true_iff in Hlen. destruct Hlen as [Hmin Hmax].
    apply Z.leb_le in Hmin, Hmax.
    unfold private_add_user, USERNAME_LENGTH_MIN, USERNAME_LENGTH_MAX.
    rewrite only_allowed_chars_spec, Hchars, Hstored. simpl.
    destruct (Z.ltb_spec (len text) 5); [lia|].
    destruct (Z.ltb_spec 20 (len text)); [lia|]. reflexivity. }
  split; [exact H|].
  unfold new_user_received_username. rewrite H. reflexivity.
Qed.

(** X6. The registration handler keeps the user ids unique, whatever it is
    sent: it adds at most one row, the user with the chat id, the text as
    username and score 0, and only when the id is not stored yet and the
    username is acceptable; the rows that were there, the jokes and the
    votes are untouched. *)
Theorem registration_keeps_user_ids_unique
  (db : DB) (chat_id : Z) (text : str) (user_data : UserData)
  (Hids : NoDup (map User_id (users db))) :
  let r := new_user_received_username db chat_id text user_data in
  NoDup (map User_id (users (r_db r)))
  /\ jokes (r_db r) = jokes db
  /\ votes (r_db r) = votes db
  /\ (r_db r = db
      \/ (users (r_db r) = users db ++ [mkUser chat_id text 0]
          /\ query_user db chat_id = None
          /\ username_ok text = true)).
Proof.
  intros r. subst r. unfold new_user_received_username.
  destruct (private_add_user db chat_id text) as [[db1 u]|e] eqn:E.
  - apply private_add_user_inv in E.
    destruct E as (Hnew & Hok & -> & ->). simpl.
    split; [|split; [reflexivity|split; [reflexivity|right; auto]]].
    rewrite map_app. simpl.
    eapply Permutation_NoDup; [apply Permutation_cons_append|].
    constructor; [apply query_user_None_fresh, Hnew|exact Hids].
  - destruct e; simpl; repeat split; auto.
Qed.

(** ** Submitting jokes, once more *)

Lemma private_get_user_again
  (db : DB) (chat_id : Z) (user_data : UserData)
  (u : UserRef) (user_data1 : UserData) :
  private_get_user db chat_id user_data = Ok (u, user_data1) ->
  forall db' chat_id',
    private_get_user db' chat_id' user_data1 = Ok (u, user_data1).
Proof.
  intros Hreg db' chat_id'.
  destruct (private_get_user_caches _ _ _ _ _ Hreg) as [-> _].
  apply private_get_user_cached. reflexivity.
Qed.

Lemma private_add_joke_inv
  (db db1 : DB) (joke_body : str) (who : UserRef) (returned : option Joke) :
  private_add_joke db joke_body who = Ok (db1, returned) ->
  joke_body_ok joke_body = true
  /\ exists new_id,
       db1 = add_joke (mkJoke new_id joke_body 0 who) db
       /\ forall old, In old (jokes db) -> Joke_id old < new_id.
Proof.
  intros Hadd.
  assert (Hok : joke_body_ok joke_body = true).
  { apply joke_body_ok_iff.
    unfold private_add_joke, JOKE_LENGTH_MIN, JOKE_LENGTH_MAX in Hadd.
    destruct (Z.ltb_spec (len joke_body) 10); [discriminate|].
    destruct (Z.ltb_spec 1000 (len joke_body)); [discriminate|]. lia. }
  split; [exact Hok|].
  destruct (private_add_joke_success db joke_body who Hok)
    as [new_id [Heq [Hempty Hnext]]].
  rewrite Heq in Hadd. injection Hadd as <- _.
  exists new_id. split; [reflexivity|].
  intros old Hold.
  destruct Hnext as [top [_ [-> Hmax]]].
  - intros E. rewrite E in Hold. destruct Hold.
  - specialize (Hmax old Hold). lia.
Qed.

Lemma private_add_joke_failure
  (db : DB) (joke_body : str) (who : UserRef) (e : exn) :
  private_add_joke db joke_body who = Raise e ->
  joke_body_ok joke_body = false /\ (e = TooShort \/ e = TooLong).
Proof.
  unfold private_add_joke, joke_body_ok, JOKE_LENGTH_MIN, JOKE_LENGTH_MAX.
  destruct (Z.ltb_spec (len joke_body) 10) as [Hs|Hs].
  - intros H; injection H as <-. split; [|left; reflexivity].
    apply andb_false_iff. left. apply Z.leb_gt. exact Hs.
  - destruct (Z.ltb_spec 1000 (len joke_body)) as [Hl|Hl]; [|discriminate].
    intros H; injection H as <-. split; [|right; reflexivity].
    apply andb_false_iff. right. apply Z.leb_gt. exact Hl.
Qed.

(** What [new_joke_received] does for a registered user. *)
Lemma new_joke_received_registered
  (db : DB) (chat_id : Z) (text : str) (user_data : UserData)
  (u : UserRef) (user_data1 : UserData) :
  private_get_user db chat_id user_data = Ok (u, user_data1) ->
  let r := new_joke_received db chat_id text user_data in
  r_user_data r = user_data1
  /\ ((joke_body_ok text = true
       /\ exists new_id,
            r_db r = add_joke (mkJoke new_id text 0 u) db
            /\ forall old, In old (jokes db) -> Joke_id old < new_id)
      \/ (joke_body_ok text = false /\ r_db r = db)).
Proof.
  intros Hreg r. subst r. unfold new_joke_received. rewrite Hreg.
  destruct (private_add_joke db text u) as [[db1 returned]|e] eqn:E.
  - apply private_add_joke_inv in E. destruct E as [Hok [new_id [-> Hnew]]].
    simpl. split; [reflexivity|]. left. split; [exact Hok|].
    exists new_id. split; [reflexivity|exact Hnew].
  - apply private_add_joke_failure in E. destruct E as [Hbad [-> | ->]];
      simpl; (split; [reflexivity|right; split; [exact Hbad|reflexivity]]).
Qed.

Lemma fresh_id_NoDup (ids : list Z) (new_id : Z) :
  NoDup ids -> (forall i, In i ids -> i < new_id) -> NoDup (ids ++ [new_id]).
Proof.
  intros Hnd Hlt.
  eapply Permutation_NoDup; [apply Permutation_cons_append|].
  constructor; [|exact Hnd].
  intros Hin. specialize (Hlt new_id Hin). lia.
Qed.

(** X7. The joke handler keeps the joke ids unique, whatever it is sent:
    it adds at most one joke, with the text as body, vote count 0, the user
    of the session as author and an id above every stored id, and only for
    a registered user and a body of acceptable length; the jokes that were
    there, the users and the votes are untouched. *)
Theorem submission_keeps_joke_ids_unique
  (db : DB) (chat_id : Z) (text : str) (user_data : UserData)
  (Hids : NoDup (map Joke_id (jokes db))) :
  let r := new_joke_received db chat_id text user_data in
  NoDup (map Joke_id (jokes (r_db r)))
  /\ users (r_db r) = users db
  /\ votes (r_db r) = votes db
  /\ (r_db r = db
      \/ exists new_id u user_data1,
           jokes (r_db r) = jokes db ++ [mkJoke new_id text 0 u]
           /\ private_get_user db chat_id user_data = Ok (u, user_data1)
           /\ joke_body_ok text = true
           /\ forall old, In old (jokes db) -> Joke_id old < new_id).
Proof.
  intros r.
  destruct (private_get_user db chat_id user_data) as [[u user_data1]|e] eqn:Hreg.
  - destruct (new_joke_received_registered db chat_id text user_data u
                user_data1 Hreg) as [_ [[Hok [new_id [Hdb Hnew]]]|[_ Hdb]]];
      fold r in Hdb; rewrite Hdb.
    + simpl. split; [|split; [reflexivity|split; [reflexivity|]]].
      * rewrite map_app. simpl. apply fresh_id_NoDup; [exact Hids|].
        intros i Hi. apply in_map_iff in Hi. destruct Hi as [old [<- Hold]].
        apply Hnew, Hold.
      * right. exists new_id, u, user_data1. auto.
    + auto.
  - subst r. unfold new_joke_received. rewrite Hreg. simpl. auto.
Qed.

(** ** From a displayed joke to a vote *)

Section DisplayThenVote.

Variable User_vote_for_joke : DB -> UserRef -> JokeRef -> bool -> Exc DB.
Variable shuffle : list Joke -> list Joke.
Variable User_get_jokes_voted_positive : DB -> UserRef -> list Joke.
Variable draw : nat.

(** X9. When /random_joke has displayed a joke to a registered user, the
    vote message that follows is cast on exactly that joke, by that user,
    positive when the text contains "hah" and negative otherwise; the store
    is the one the vote yields (the old one when the vote raises), the user
    gets the [after_vote] answer and the session forgets the joke. *)
Theorem vote_targets_the_displayed_joke
  (db : DB) (chat_id : Z) (user_data : UserData) (text : str)
  (u : UserRef) (user_data1 : UserData) (random_joke : Joke)
  (Hreg : private_get_user db chat_id user_data = Ok (u, user_data1))
  (Hshown : display_random_joke shuffle db chat_id user_data
            = mkResult db (set_last_joke (Joke_id random_joke) user_data1)
                [reply_text (body random_joke); vote_keyboard] [] None) :
  let r1 := display_random_joke shuffle db chat_id user_data in
  let r2 := vote_for_joke User_vote_for_joke (r_db r1) chat_id text
              (r_user_data r1) in
  r_db r2 = match User_vote_for_joke db u (Joke_id random_joke)
                    (contains (py "hah") text) with
            | Ok db1 => db1
            | Raise _ => db
            end
  /\ r_out r2 = [remove_keyboard "after_vote"]
  /\ r_user_data r2 = del_last_joke user_data1
  /\ r_return r2 = None.
Proof.
  intros r1 r2. subst r2 r1. rewrite Hshown. simpl r_db. simpl r_user_data.
  assert (Hcu : current_user (set_last_joke (Joke_id random_joke) user_data1)
                = Some u).
  { destruct (private_get_user_caches _ _ _ _ _ Hreg) as [-> _]. reflexivity. }
  unfold vote_for_joke.
  rewrite (private_get_user_cached db chat_id u _ Hcu). simpl last_joke.
  cbv beta iota zeta.
  destruct (User_vote_for_joke db u (Joke_id random_joke)
              (contains (py "hah") text)) as [db1|[]];
    repeat split.
Qed.

(** X10. /best_joke and /random_favorite_joke show no vote keyboard and
    leave the joke the session remembers as it is.  A vote message sent
    after one of them is therefore handled exactly as if it had been sent
    before: with no joke remembered it is answered with [joke_no_current],
    although a joke may just have been displayed, and with a joke
    remembered it is cast on that joke, the one of the last /random_joke,
    whichever joke /best_joke has displayed since. *)
Theorem best_and_favorite_do_not_arm_a_vote
  (db : DB) (chat_id : Z) (user_data : UserData) (text : str) :
  let rb := display_best_joke db chat_id user_data in
  let rf := display_random_favorite_joke User_get_jokes_voted_positive draw
              db chat_id user_data in
  let vote_after_best :=
    vote_for_joke User_vote_for_joke (r_db rb) chat_id text (r_user_data rb) in
  let vote_after_favorite :=
    vote_for_joke User_vote_for_joke (r_db rf) chat_id text (r_user_data rf) in
  last_joke (r_user_data rb) = last_joke user_data
  /\ last_joke (r_user_data rf) = last_joke user_data
  /\ ~ In vote_keyboard (r_out rb)
  /\ ~ In vote_keyboard (r_out rf)
  /\ vote_after_best
     = vote_for_joke User_vote_for_joke db chat_id text user_data
  /\ vote_after_favorite
     = vote_for_joke User_vote_for_joke db chat_id text user_data
  /\ (forall u user_data1,
        private_get_user db chat_id user_data = Ok (u, user_data1) ->
        (last_joke user_data = None ->
           r_out vote_after_best = [reply_random "joke_no_current"]
           /\ r_db vote_after_best = db
           /\ r_out vote_after_favorite = [reply_random "joke_no_current"]
           /\ r_db vote_after_favorite = db)
        /\ (forall remembered, last_joke user_data = Some remembered ->
              let cast := User_vote_for_joke db u remembered
                            (contains (py "hah") text) in
              r_db vote_after_best
                = match cast with Ok db1 => db1 | Raise _ => db end
              /\ r_db vote_after_favorite
                 = match cast with Ok db1 => db1 | Raise _ => db end)).
Proof.
  intros rb rf vote_after_best vote_after_favorite.
  assert (Hb : vote_after_best
               = vote_for_joke User_vote_for_joke db chat_id text user_data
               /\ last_joke (r_user_data rb) = last_joke user_data
               /\ ~ In vote_keyboard (r_out rb)).
  { subst vote_after_best rb. unfold display_best_joke.
    destruct (private_get_user db chat_id user_data) as [[u user_data1]|e] eqn:Hreg.
    - assert (Hvote : vote_for_joke User_vote_for_joke db chat_id text user_data1
                      = vote_for_joke User_vote_for_joke db chat_id text user_data).
      { unfold vote_for_joke.
        rewrite (private_get_user_again _ _ _ _ _ Hreg db chat_id), Hreg.
        reflexivity. }
      destruct (private_get_user_caches _ _ _ _ _ Hreg) as [Hud _].
      destruct (find (unseen db u) (order_by vote_count (jokes db))) as [joke|];
        simpl; (split; [exact Hvote|split; [rewrite Hud; reflexivity|]]);
        intros H; repeat (destruct H as [H|H]; [discriminate|]); exact H.
    - simpl. split; [reflexivity|split; [reflexivity|]].
      intros H; repeat (destruct H as [H|H]; [discriminate|]); exact H. }
  assert (Hf : vote_after_favorite
               = vote_for_joke User_vote_for_joke db chat_id text user_data
               /\ last_joke (r_user_data rf) = last_joke user_data
               /\ ~ In vote_keyboard (r_out rf)).
  { subst vote_after_favorite rf. unfold display_random_favorite_joke.
    destruct (private_get_user db chat_id user_data) as [[u user_data1]|e] eqn:Hreg.
    - assert (Hvote : vote_for_joke User_vote_for_joke db chat_id text user_data1
                      = vote_for_joke User_vote_for_joke db chat_id text user_data).
      { unfold vote_for_joke.
        rewrite (private_get_user_again _ _ _ _ _ Hreg db chat_id), Hreg.
        reflexivity. }
      destruct (private_get_user_caches _ _ _ _ _ Hreg) as [Hud _].
      destruct (choice draw (User_get_jokes_voted_positive db u)) as [fav|];
        simpl; (split; [exact Hvote|split; [rewrite Hud; reflexivity|]]);
        intros H; repeat (destruct H as [H|H]; [discriminate|]); exact H.
    - simpl. split; [reflexivity|split; [reflexivity|]].
      intros H; repeat (destruct H as [H|H]; [discriminate|]); exact H. }
  destruct Hb as (Hb & Hlb & Hkb). destruct Hf as (Hf & Hlf & Hkf).
  split; [exact Hlb|]. split; [exact Hlf|]. split; [exact Hkb|].
  split; [exact Hkf|]. split; [exact Hb|]. split; [exact Hf|].
  intros u user_data1 Hreg. rewrite Hb, Hf.
  destruct (private_get_user_caches _ _ _ _ _ Hreg) as [Hud _].
  assert (Hlast1 : last_joke user_data1 = last_joke user_data)
    by (rewrite Hud; reflexivity).
  unfold vote_for_joke. rewrite Hreg, Hlast1. split.
  - intros ->. repeat split.
  - intros remembered ->. cbv zeta.
    destruct (User_vote_for_joke db u remembered (contains (py "hah") text))
      as [db1|[]]; split; reflexivity.
Qed.

End DisplayThenVote.

(** ** What the handlers leave alone *)

Ltac split_cases :=
  repeat match goal with
         | |- context [match ?x with _ => _ end] => destruct x
         | |- context [if ?b then _ else _] => destruct b
         end.

Section Frames.

Variable User_vote_for_joke : DB -> UserRef -> JokeRef -> bool -> Exc DB.
Variable get_average_score : DB -> UserRef -> Q.
Variable shuffle : list Joke -> list Joke.
Variable User_get_jokes_voted_positive : DB -> UserRef -> list Joke.
Variable draw : nat.

Lemma private_get_user_frame
  (db : DB) (chat_id : Z) (user_data : UserData)
  (u : UserRef) (user_data1 : UserData) :
  private_get_user db chat_id user_data = Ok (u, user_data1) ->
  user user_data1 = user user_data /\ last_joke user_data1 = last_joke user_data.
Proof.
  intros Hreg.
  destruct (private_get_user_caches _ _ _ _ _ Hreg) as [-> _].
  split; reflexivity.
Qed.

(** X11. Only registration, joke submission and voting write the store.
    /cancel, the two prompts, the menu, /random_favorite_joke, /best_joke,
    /top10 and /profile leave the store, the remembered joke and the key
    ['user'] as they are and log nothing; /random_joke does the same except
    that, when it displays a joke, it remembers that joke. *)
Theorem display_handlers_do_not_write
  (db : DB) (chat_id : Z) (user_data : UserData) :
  untouched db user_data (cancel db user_data)
  /\ untouched db user_data (new_user_prompt db user_data)
  /\ untouched db user_data (new_joke_prompt db user_data)
  /\ untouched db user_data (menu db chat_id user_data)
  /\ untouched db user_data
       (display_random_favorite_joke User_get_jokes_voted_positive draw
          db chat_id user_data)
  /\ untouched db user_data (display_best_joke db chat_id user_data)
  /\ untouched db user_data (top10 db chat_id user_data)
  /\ (forall r, profile get_average_score db chat_id user_data = Ok r ->
                untouched db user_data r)
  /\ (let r := display_random_joke shuffle db chat_id user_data in
      r_db r = db
      /\ user (r_user_data r) = user user_data
      /\ r_log r = []
      /\ (last_joke (r_user_data r) = last_joke user_data
          \/ exists joke,
               In joke (shuffle (jokes db))
               /\ last_joke (r_user_data r) = Some (Joke_id joke)
               /\ r_out r = [reply_text (body joke); vote_keyboard])).
Proof.
  unfold untouched, cancel, new_user_prompt, new_joke_prompt, menu,
    display_random_favorite_joke, display_best_joke, top10, profile,
    display_random_joke.
  destruct (private_get_user db chat_id user_data) as [[u user_data1]|e] eqn:Hreg.
  - destruct (private_get_user_frame _ _ _ _ _ Hreg) as [Hu Hl].
    repeat match goal with |- _ /\ _ => split end;
      try (intros r Hr; revert Hr); cbv zeta;
      try solve [split_cases; simpl;
                 try (intros Hr; first [discriminate | injection Hr as <-; simpl]);
                 repeat split; first [reflexivity | assumption]].
    destruct (randint_raises 0 (len (jokes db) - 1)).
    + simpl. auto.
    + destruct (find (unseen db u) (shuffle (jokes db))) as [joke|] eqn:Efind;
        simpl; repeat split; auto.
      right. exists joke. apply find_some in Efind. destruct Efind. auto.
  - repeat match goal with |- _ /\ _ => split end;
      try (intros r Hr; revert Hr); cbv zeta;
      try solve [simpl;
                 try (intros Hr; injection Hr as <-; simpl);
                 repeat split; first [reflexivity | assumption]].
    simpl. auto.
Qed.

(** X12. No handler removes or replaces the user a session has cached:
    with a user under ['current_user'], every handler, whatever it is sent
    and whatever the store holds, ends with the same user there. *)
Theorem handlers_keep_the_cached_user
  (db : DB) (chat_id : Z) (text : str) (user_data : UserData) (u : UserRef)
  (Hcu : current_user user_data = Some u) :
  current_user (r_user_data (cancel db user_data)) = Some u
  /\ current_user (r_user_data (new_user_prompt db user_data)) = Some u
  /\ current_user (r_user_data (new_joke_prompt db user_data)) = Some u
  /\ current_user (r_user_data (menu db chat_id user_data)) = Some u
  /\ current_user
       (r_user_data (new_user_received_username db chat_id text user_data))
     = Some u
  /\ current_user (r_user_data (new_joke_received db chat_id text user_data))
     = Some u
  /\ current_user
       (r_user_data (display_random_joke shuffle db chat_id user_data))
     = Some u
  /\ current_user
       (r_user_data
          (display_random_favorite_joke User_get_jokes_voted_positive draw
             db chat_id user_data))
     = Some u
  /\ current_user (r_user_data (display_best_joke db chat_id user_data)) = Some u
  /\ current_user
       (r_user_data (vote_for_joke User_vote_for_joke db chat_id text user_data))
     = Some u
  /\ current_user (r_user_data (top10 db chat_id user_data)) = Some u
  /\ (forall r, profile get_average_score db chat_id user_data = Ok r ->
                current_user (r_user_data r) = Some u).
Proof.
  pose proof (private_get_user_cached db chat_id u user_data Hcu) as Hreg.
  unfold cancel, new_user_prompt, new_joke_prompt, menu,
    new_user_received_username, new_joke_received, display_random_joke,
    display_random_favorite_joke, display_best_joke, vote_for_joke, top10,
    profile.
  rewrite Hreg.
  repeat match goal with |- _ /\ _ => split end;
    try (intros r Hr; revert Hr);
    split_cases; simpl; try assumption; try discriminate.
  intros Hr. injection Hr as <-. exact Hcu.
Qed.

End Frames.

(** ** The key ['user'] *)

Section KeyUser.

Variable User_vote_for_joke : DB -> UserRef -> JokeRef -> bool -> Exc DB.
Variable get_average_score : DB -> UserRef -> Q.
Variable shuffle : list Joke -> list Joke.
Variable User_get_jokes_voted_positive : DB -> UserRef -> list Joke.
Variable draw : nat.

Ltac split_inner_cases :=
  repeat match goal with
         | |- context [match ?x with _ => _ end] =>
             lazymatch x with
             | context [match _ with _ => _ end] => fail
             | _ => destruct x
             end
         end.

(** X13. The registration handler stores the new user under ['user'], and
    no handler ever reads that key (the lookup reads ['current_user']): from
    two sessions that differ at most under ['user'], every handler yields
    the same store, the same messages, the same log and the same returned
    value, and sessions that again differ at most under ['user']. *)
Theorem no_handler_reads_the_key_user
  (db : DB) (chat_id : Z) (text : str) (ud ud' : UserData)
  (Hsame : same_but_user ud ud') :
  same_result_but_user (cancel db ud) (cancel db ud')
  /\ same_result_but_user (new_user_prompt db ud) (new_user_prompt db ud')
  /\ same_result_but_user (new_joke_prompt db ud) (new_joke_prompt db ud')
  /\ same_result_but_user (menu db chat_id ud) (menu db chat_id ud')
  /\ same_result_but_user (new_user_received_username db chat_id text ud)
       (new_user_received_username db chat_id text ud')
  /\ same_result_but_user (new_joke_received db chat_id text ud)
       (new_joke_received db chat_id text ud')
  /\ same_result_but_user (display_random_joke shuffle db chat_id ud)
       (display_random_joke shuffle db chat_id ud')
  /\ same_result_but_user
       (display_random_favorite_joke User_get_jokes_voted_positive draw
          db chat_id ud)
       (display_random_favorite_joke User_get_jokes_voted_positive draw
          db chat_id ud')
  /\ same_result_but_user (display_best_joke db chat_id ud)
       (display_best_joke db chat_id ud')
  /\ same_result_but_user (vote_for_joke User_vote_for_joke db chat_id text ud)
       (vote_for_joke User_vote_for_joke db chat_id text ud')
  /\ same_result_but_user (top10 db chat_id ud) (top10 db chat_id ud')
  /\ match profile get_average_score db chat_id ud,
           profile get_average_score db chat_id ud' with
     | Ok r, Ok r' => same_result_but_user r r'
     | Raise e, Raise e' => e = e'
     | _, _ => False
     end.
Proof.
  destruct ud as [cu us lj], ud' as [cu' us' lj'].
  destruct Hsame as [Hcu Hlj]. simpl in Hcu, Hlj. subst cu' lj'.
  unfold cancel, new_user_prompt, new_joke_prompt, menu,
    new_user_received_username, new_joke_received, display_random_joke,
    display_random_favorite_joke, display_best_joke, vote_for_joke, top10,
    profile, private_get_user.
  unfold set_current_user, set_user, set_last_joke, del_last_joke.
  destruct lj as [joke|]; (destruct cu as [c|];
    [|destruct (query_user db chat_id) as [row|]]);
  cbn [current_user user last_joke]; cbv beta iota zeta;
  repeat match goal with |- _ /\ _ => split end;
    split_inner_cases;
    unfold same_result_but_user, same_but_user;
    cbn [current_user user last_joke r_db r_user_data r_out r_log r_return];
    repeat split.
Qed.

End KeyUser.

(** ** When a joke is displayed *)

Lemma forallb_perm {A : Type} (f : A -> bool) (l l' : list A) :
  Permutation l l' -> forallb f l' = true -> forallb f l = true.
Proof.
  intros Hp Hall. rewrite forallb_forall in *.
  intros x Hx. apply Hall. eapply Permutation_in; [exact Hp|exact Hx].
Qed.

(** X14. For a registered user and joke ids that identify the jokes,
    /random_joke answers [no_new_jokes] exactly when the user has authored
    or voted on every joke of the repository, and /best_joke stays silent
    in exactly the same case: as long as one unseen joke is left, both
    display a joke. *)
Theorem no_joke_is_displayed_iff_all_are_seen
  (shuffle : list Joke -> list Joke)
  (db : DB) (chat_id : Z) (user_data : UserData)
  (u : UserRef) (user_data1 : UserData)
  (Hreg : private_get_user db chat_id user_data = Ok (u, user_data1))
  (Hshuffle : Permutation (jokes db) (shuffle (jokes db)))
  (Hids : NoDup (map Joke_id (jokes db))) :
  (r_out (display_random_joke shuffle db chat_id user_data)
     = [reply_random "no_new_jokes"]
   <-> forallb (seen_by db u) (jokes db) = true)
  /\ (r_out (display_best_joke db chat_id user_data) = []
      <-> forallb (seen_by db u) (jokes db) = true).
Proof.
  split; split.
  - unfold display_random_joke. rewrite Hreg.
    destruct (randint_raises 0 (len (jokes db) - 1)) eqn:Er.
    + intros _. apply len_nil_iff in Er. rewrite Er. reflexivity.
    + pose proof (find_first (unseen db u) (shuffle (jokes db))) as Hfind.
      destruct (find (unseen db u) (shuffle (jokes db))) as [joke|].
      * simpl. discriminate.
      * intros _. apply (forallb_perm _ _ _ Hshuffle).
        apply (skipped_are_seen db u _ Hids); [|exact Hfind].
        intros j Hj.
        eapply Permutation_in; [apply Permutation_sym, Hshuffle|exact Hj].
  - intros Hseen. unfold display_random_joke. rewrite Hreg.
    destruct (randint_raises 0 (len (jokes db) - 1)); [reflexivity|].
    rewrite (all_seen_none_unseen db u (shuffle (jokes db))).
    + reflexivity.
    + intros j Hj.
      eapply Permutation_in; [apply Permutation_sym, Hshuffle|exact Hj].
    + exact Hseen.
  - unfold display_best_joke. rewrite Hreg.
    pose proof (find_first (unseen db u) (order_by vote_count (jokes db))) as Hfind.
    destruct (find (unseen db u) (order_by vote_count (jokes db))) as [joke|].
    + simpl. discriminate.
    + intros _. apply (forallb_perm _ _ _ (order_by_perm vote_count (jokes db))).
      apply (skipped_are_seen db u _ Hids); [|exact Hfind].
      intros j. apply order_by_In.
  - intros Hseen. unfold display_best_joke. rewrite Hreg.
    rewrite (all_seen_none_unseen db u (order_by vote_count (jokes db))).
    + reflexivity.
    + intros j. apply order_by_In.
    + exact Hseen.
Qed.

Lemma choice_reaches {A : Type} (l : list A) (x : A) :
  In x l -> exists draw, choice draw l = Some x.
Proof.
  intros Hin. apply In_nth_error in Hin. destruct Hin as [n Hn].
  exists n. destruct l as [|a l]; [destruct n; discriminate|].
  unfold choice. rewrite Nat.mod_small; [exact Hn|].
  apply nth_error_Some. congruence.
Qed.

(** X15. For a registered user, /random_favorite_joke answers
    [joke_no_favorite] when the user has no positively voted joke, and
    otherwise displays the body of one of the user's positively voted
    jokes; each of them is displayed for some draw. *)
Theorem favorite_joke_is_a_favorite
  (User_get_jokes_voted_positive : DB -> UserRef -> list Joke) (draw : nat)
  (db : DB) (chat_id : Z) (user_data : UserData)
  (u : UserRef) (user_data1 : UserData)
  (Hreg : private_get_user db chat_id user_data = Ok (u, user_data1)) :
  let favorites := User_get_jokes_voted_positive db u in
  (favorites = [] ->
     display_random_favorite_joke User_get_jokes_voted_positive draw
       db chat_id user_data
     = mkResult db user_data1 [reply_random "joke_no_favorite"] [] None)
  /\ (favorites <> [] ->
        exists joke,
          In joke favorites
          /\ display_random_favorite_joke User_get_jokes_voted_positive draw
               db chat_id user_data
             = mkResult db user_data1 [reply_text (body joke)] [] None)
  /\ (forall joke, In joke favorites ->
        exists draw',
          display_random_favorite_joke User_get_jokes_voted_positive draw'
            db chat_id user_data
          = mkResult db user_data1 [reply_text (body joke)] [] None).
Proof.
  intros favorites. unfold display_random_favorite_joke. rewrite Hreg.
  fold favorites. split; [|split].
  - intros ->. reflexivity.
  - intros Hne. destruct (choice_some draw favorites Hne) as [joke [Hc Hin]].
    exists joke. rewrite Hc. auto.
  - intros joke Hin. destruct (choice_reaches favorites joke Hin) as [draw' Hc].
    exists draw'. rewrite Hc. reflexivity.
Qed.

(** ** Ranking, once more *)

Lemma ascending_app_inv {A : Type} (key : A -> Z) (l1 l2 : list A) :
  ascending key (l1 ++ l2) ->
  ascending key l1
  /\ forall a b, In a l1 -> In b l2 -> key a <= key b.
Proof.
  unfold ascending. induction l1 as [|x l1 IH]; simpl; intros Hs.
  - split; [constructor|]. intros a b [].
  - inversion Hs as [|? ? Hrest Hx]; subst.
    destruct (IH Hrest) as [Hs1 Hcross].
    rewrite Forall_forall in Hx. split.
    + constructor; [exact Hs1|].
      apply Forall_forall. intros y Hy. apply Hx, in_or_app. left; exact Hy.
    + intros a b [<-|Ha] Hb.
      * apply Hx, in_or_app. right; exact Hb.
      * apply Hcross; assumption.
Qed.

Lemma ascending_nth {A : Type} (key : A -> Z) (l : list A) :
  ascending key l ->
  forall (i j : nat) (a b : A),
    (i <= j)%nat -> nth_error l i = Some a -> nth_error l j = Some b ->
    key a <= key b.
Proof.
  unfold ascending. induction 1 as [|x l Hs IH Hx]; intros i j a b Hij Ha Hb.
  - destruct i; discriminate.
  - destruct i as [|i], j as [|j]; simpl in *; try lia.
    + injection Ha as <-. injection Hb as <-. lia.
    + injection Ha as <-. rewrite Forall_forall in Hx.
      apply Hx. eapply nth_error_In, Hb.
    + apply (IH i j a b); [lia|assumption|assumption].
Qed.

Lemma enumerate_from_ranks {A : Type} (l : list A) (start : Z) :
  map fst (enumerate_from start l)
  = map (fun k => start + Z.of_nat k) (seq 0 (List.length l))
  /\ map snd (enumerate_from start l) = l.
Proof.
  revert start. induction l as [|x l IH]; intros start; simpl.
  - split; reflexivity.
  - destruct (IH (start + 1)) as [Hf Hs]. rewrite Hf, Hs. split; [|reflexivity].
    f_equal; [lia|].
    rewrite <- seq_shift, map_map. apply map_ext. intros k. lia.
Qed.

(** X16. For a registered user, /top10 lists min(10, number of users)
    users, numbered 1, 2, ... in that order, in ascending order of score;
    every user that is left out has a score at least as high as every user
    that is listed: the list holds the lowest scores of the store. *)
Theorem top10_lists_the_lowest_scores
  (db : DB) (chat_id : Z) (user_data : UserData)
  (u : UserRef) (user_data1 : UserData)
  (Hreg : private_get_user db chat_id user_data = Ok (u, user_data1)) :
  exists listed rest lines,
    top10 db chat_id user_data
      = mkResult db user_data1 [reply_top10 lines] [] None
    /\ Permutation (users db) (listed ++ rest)
    /\ List.length listed = Nat.min 10 (List.length (users db))
    /\ ascending score listed
    /\ (forall a b, In a listed -> In b rest -> score a <= score b)
    /\ map (fun line => fst (fst line)) lines
       = map (fun k => Z.of_nat k + 1) (seq 0 (List.length listed))
    /\ map (fun line => (snd (fst line), snd line)) lines
       = map (fun row => (username row, score row)) listed.
Proof.
  pose proof (order_by_ascending score (users db)) as Hsorted.
  rewrite <- (firstn_skipn 10 (order_by score (users db))) in Hsorted.
  destruct (ascending_app_inv _ _ _ Hsorted) as [Hlisted Hcross].
  exists (firstn 10 (order_by score (users db))),
         (skipn 10 (order_by score (users db))).
  eexists. unfold top10. rewrite Hreg. cbv zeta.
  split; [reflexivity|]. split; [|split; [|split; [|split; [|split]]]].
  - rewrite firstn_skipn. apply order_by_perm.
  - rewrite length_firstn.
    rewrite (Permutation_length (order_by_perm score (users db))). reflexivity.
  - exact Hlisted.
  - exact Hcross.
  - unfold enumerate.
    destruct (enumerate_from_ranks (firstn 10 (order_by score (users db))) 0)
      as [Hranks _].
    rewrite map_map.
    transitivity (map (fun p => fst p + 1)
                      (enumerate_from 0 (firstn 10 (order_by score (users db))))).
    + apply map_ext. intros [i row]. reflexivity.
    + rewrite <- (map_map fst (fun i => i + 1)), Hranks, map_map.
      apply map_ext. intros k. lia.
  - unfold enumerate.
    destruct (enumerate_from_ranks (firstn 10 (order_by score (users db))) 0)
      as [_ Hrows].
    rewrite map_map.
    transitivity (map (fun p => (username (snd p), score (snd p)))
                      (enumerate_from 0 (firstn 10 (order_by score (users db))))).
    + apply map_ext. intros [i row]. reflexivity.
    + rewrite <- (map_map snd (fun row => (username row, score row))), Hrows.
      reflexivity.
Qed.

(** What a profile message tells about the row of the user. *)
Lemma profile_inv
  (get_average_score : DB -> UserRef -> Q)
  (db : DB) (chat_id : Z) (user_data : UserData) (r : Result)
  (name : str) (rank points jokes_count : Z) (average : Q) :
  profile get_average_score db chat_id user_data = Ok r ->
  r_out r = [reply_profile name rank points jokes_count average] ->
  exists (u : UserRef) (user_data1 : UserData) (i : nat) (me : User),
    private_get_user db chat_id user_data = Ok (u, user_data1)
    /\ nth_error (order_by score (users db)) i = Some me
    /\ rank = Z.of_nat i + 1
    /\ name = username me /\ points = score me /\ User_id me = u.
Proof.
  unfold profile.
  destruct (private_get_user db chat_id user_data) as [[u user_data1]|e].
  - pose proof (index_of_spec (fun row => User_id row =? u)
                  (order_by score (users db))) as Hindex.
    destruct (index_of (fun row => User_id row =? u) (order_by score (users db)))
      as [i|]; [|discriminate].
    destruct Hindex as [Hi [me [Hnth [Hme [Hfind _]]]]].
    rewrite Hfind. intros Hr Hout. injection Hr as <-. simpl in Hout.
    injection Hout as <- <- <- _ _.
    exists u, user_data1, (Z.to_nat i), me.
    split; [reflexivity|]. split; [exact Hnth|]. split; [lia|].
    split; [reflexivity|]. split; [reflexivity|]. apply Z.eqb_eq, Hme.
  - intros Hr Hout. injection Hr as <-. simpl in Hout. discriminate.
Qed.

(** X17. The rank /profile shows lies between 1 and the number of users,
    and it follows the score: of two users whose profiles show different
    scores, the one with the lower score has the smaller rank. *)
Theorem rank_follows_score
  (get_average_score : DB -> UserRef -> Q) (db : DB)
  (chat_a chat_b : Z) (ud_a ud_b : UserData) (r_a r_b : Result)
  (name_a name_b : str) (rank_a rank_b points_a points_b n_a n_b : Z)
  (avg_a avg_b : Q)
  (Ha : profile get_average_score db chat_a ud_a = Ok r_a)
  (Hout_a : r_out r_a = [reply_profile name_a rank_a points_a n_a avg_a])
  (Hb : profile get_average_score db chat_b ud_b = Ok r_b)
  (Hout_b : r_out r_b = [reply_profile name_b rank_b points_b n_b avg_b]) :
  1 <= rank_a <= len (users db)
  /\ (points_a < points_b -> rank_a < rank_b).
Proof.
  destruct (profile_inv _ _ _ _ _ _ _ _ _ _ Ha Hout_a)
    as (ua & ud1a & i & me_a & _ & Hi & -> & _ & -> & _).
  destruct (profile_inv _ _ _ _ _ _ _ _ _ _ Hb Hout_b)
    as (ub & ud1b & j & me_b & _ & Hj & -> & _ & -> & _).
  split.
  - assert (Hlt : (i < List.length (order_by score (users db)))%nat)
      by (apply nth_error_Some; congruence).
    rewrite <- (Permutation_length (order_by_perm score (users db))) in Hlt.
    unfold len. lia.
  - intros Hlow.
    destruct (Nat.lt_ge_cases i j) as [Hij|Hji]; [lia|].
    pose proof (ascending_nth score _ (order_by_ascending score (users db))
                  j i me_b me_a Hji Hj Hi). lia.
Qed.

(** X18. /profile and /top10 agree: when the profile of a user shows a rank
    of at most 10, the line of /top10 with that number carries the username
    and the score the profile shows. *)
Theorem profile_rank_is_the_top10_line
  (get_average_score : DB -> UserRef -> Q)
  (db : DB) (chat_id : Z) (user_data : UserData) (r : Result)
  (name : str) (rank points jokes_count : Z) (average : Q)
  (Hprofile : profile get_average_score db chat_id user_data = Ok r)
  (Hout : r_out r = [reply_profile name rank points jokes_count average])
  (Htop : rank <= 10) :
  exists lines,
    r_out (top10 db chat_id user_data) = [reply_top10 lines]
    /\ nth_error lines (Z.to_nat (rank - 1)) = Some (rank, name, points).
Proof.
  destruct (profile_inv _ _ _ _ _ _ _ _ _ _ Hprofile Hout)
    as (u & ud1 & i & me & Hreg & Hi & -> & -> & -> & _).
  eexists. unfold top10. rewrite Hreg. cbv zeta. split; [reflexivity|].
  replace (Z.to_nat (Z.of_nat i + 1 - 1)) with i by lia.
  rewrite nth_error_map. unfold enumerate.
  rewrite (enumerate_from_nth _ 0 i me).
  - simpl. reflexivity.
  - rewrite nth_error_firstn.
    destruct (Nat.ltb_spec i 10) as [_|Hge]; [exact Hi|lia].
Qed.

(** * The further properties at concrete inputs *)

Lemma private_get_user_sticky_witness :
  private_get_user sample_db 1 no_user_data
    = Ok (1, mkUserData (Some 1) None None)
  /\ private_get_user empty_db 99 (mkUserData (Some 1) None None)
     = Ok (1, mkUserData (Some 1) None None).
Proof.
  split; [reflexivity|].
  apply (private_get_user_sticky sample_db 1 no_user_data 1
           (mkUserData (Some 1) None None) eq_refl).
Defined.

Lemma unregistered_gets_registration_keyboard_witness :
  current_user shown_joke1 = None
  /\ query_user sample_db 7 = None
  /\ vote_for_joke spec_vote_for_joke sample_db 7 (py "/hah") shown_joke1
     = mkResult sample_db shown_joke1 [new_user_keyboard] [] None
  /\ profile spec_get_average_score sample_db 7 shown_joke1
     = Ok (mkResult sample_db shown_joke1 [new_user_keyboard] [] None).
Proof.
  split; [reflexivity|]. split; [reflexivity|].
  destruct (unregistered_gets_registration_keyboard spec_vote_for_joke
              spec_get_average_score (@rev Joke) spec_get_jokes_voted_positive 0
              sample_db 7 (py "/hah") shown_joke1 eq_refl eq_refl)
    as (_ & _ & _ & _ & _ & Hvote & _ & Hprofile).
  split; [exact Hvote|exact Hprofile].
Defined.

Lemma registration_then_menu_witness :
  query_user empty_db 1 = None
  /\ username_ok (py "alice") = true
  /\ current_user no_user_data = None
  /\ menu empty_db 1 no_user_data
     = mkResult empty_db no_user_data [new_user_keyboard] [] None
  /\ menu (add_user alice empty_db) 1 (mkUserData None (Some 1) None)
     = mkResult (add_user alice empty_db) (mkUserData (Some 1) (Some 1) None)
         [menu_keyboard] [] None.
Proof.
  split; [reflexivity|]. split; [reflexivity|]. split; [reflexivity|].
  destruct (registration_then_menu empty_db 1 (py "alice") no_user_data
              eq_refl eq_refl eq_refl)
    as (Hbefore & _ & _ & _ & Hafter & _).
  split; [exact Hbefore|exact Hafter].
Defined.

Lemma registered_identity_gets_no_answer_witness :
  query_user sample_db 1 = Some alice
  /\ username_ok (py "alice2") = true
  /\ new_user_received_username sample_db 1 (py "alice2") no_user_data
     = mkResult sample_db no_user_data [] [] None.
Proof.
  split; [reflexivity|]. split; [reflexivity|].
  apply (registered_identity_gets_no_answer sample_db 1 (py "alice2")
           no_user_data alice eq_refl eq_refl).
Defined.

Lemma sample_user_ids_NoDup : NoDup (map User_id (users sample_db)).
Proof.
  simpl. repeat constructor; simpl; intros H;
    repeat (destruct H as [H|H]; [discriminate|]); exact H.
Defined.

Lemma registration_keeps_user_ids_unique_witness :
  NoDup (map User_id (users sample_db))
  /\ NoDup (map User_id
              (users (r_db (new_user_received_username sample_db 4
                              (py "dave-4") no_user_data))))
  /\ map User_id
       (users (r_db (new_user_received_username sample_db 4
                       (py "dave-4") no_user_data)))
     = [1; 2; 3; 4].
Proof.
  split; [exact sample_user_ids_NoDup|].
  split; [|reflexivity].
  apply (registration_keeps_user_ids_unique sample_db 4 (py "dave-4")
           no_user_data sample_user_ids_NoDup).
Defined.

Lemma submission_keeps_joke_ids_unique_witness :
  NoDup (map Joke_id (jokes sample_db))
  /\ NoDup (map Joke_id
              (jokes (r_db (new_joke_received sample_db 2 knock no_user_data))))
  /\ map Joke_id (jokes (r_db (new_joke_received sample_db 2 knock no_user_data)))
     = [0; 1; 2; 3].
Proof.
  split; [exact sample_joke_ids_NoDup|].
  split; [|reflexivity].
  apply (submission_keeps_joke_ids_unique sample_db 2 knock no_user_data
           sample_joke_ids_NoDup).
Defined.

(** carol is shown [joke2] and answers /hah: the vote goes to joke 2, whose
    count goes from -1 to 0. *)
Lemma vote_targets_the_displayed_joke_witness :
  private_get_user sample_db 3 no_user_data
    = Ok (3, mkUserData (Some 3) None None)
  /\ display_random_joke (@rev Joke) sample_db 3 no_user_data
     = mkResult sample_db (set_last_joke (Joke_id joke2) (mkUserData (Some 3) None None))
         [reply_text (body joke2); vote_keyboard] [] None
  /\ r_db (vote_for_joke spec_vote_for_joke sample_db 3 (py "/hah")
             (mkUserData (Some 3) None (Some 2)))
     = mkDB (users sample_db)
            [joke0; joke1; mkJoke 2 (body joke2) 0 1]
            [mkVote 3 0 true; mkVote 3 2 true].
Proof.
  split; [reflexivity|]. split; [reflexivity|].
  destruct (vote_targets_the_displayed_joke spec_vote_for_joke (@rev Joke)
              sample_db 3 no_user_data (py "/hah") 3
              (mkUserData (Some 3) None None) joke2 eq_refl eq_refl)
    as (Hdb & _).
  exact Hdb.
Defined.

Lemma handlers_keep_the_cached_user_witness :
  current_user (mkUserData (Some 3) None (Some 1)) = Some 3
  /\ current_user
       (r_user_data (vote_for_joke spec_vote_for_joke sample_db 1 (py "/nah")
                       (mkUserData (Some 3) None (Some 1))))
     = Some 3
  /\ current_user
       (r_user_data (new_user_received_username sample_db 9 (py "someone")
                       (mkUserData (Some 3) None (Some 1))))
     = Some 3.
Proof.
  split; [reflexivity|].
  destruct (handlers_keep_the_cached_user spec_vote_for_joke
              spec_get_average_score (@rev Joke) spec_get_jokes_voted_positive 0
              sample_db 1 (py "/nah") (mkUserData (Some 3) None (Some 1)) 3
              eq_refl)
    as (_ & _ & _ & _ & _ & _ & _ & _ & _ & Hvote & _).
  destruct (handlers_keep_the_cached_user spec_vote_for_joke
              spec_get_average_score (@rev Joke) spec_get_jokes_voted_positive 0
              sample_db 9 (py "someone") (mkUserData (Some 3) None (Some 1)) 3
              eq_refl)
    as (_ & _ & _ & _ & Hregister & _).
  split; [exact Hvote|exact Hregister].
Defined.

Lemma no_handler_reads_the_key_user_witness :
  same_but_user shown_joke1 (mkUserData None (Some 5) (Some 1))
  /\ same_result_but_user
       (vote_for_joke spec_vote_for_joke sample_db 3 (py "/hah") shown_joke1)
       (vote_for_joke spec_vote_for_joke sample_db 3 (py "/hah")
          (mkUserData None (Some 5) (Some 1))).
Proof.
  assert (Hsame : same_but_user shown_joke1 (mkUserData None (Some 5) (Some 1)))
    by (split; reflexivity).
  split; [exact Hsame|].
  destruct (no_handler_reads_the_key_user spec_vote_for_joke
              spec_get_average_score (@rev Joke) spec_get_jokes_voted_positive 0
              sample_db 3 (py "/hah") shown_joke1
              (mkUserData None (Some 5) (Some 1)) Hsame)
    as (_ & _ & _ & _ & _ & _ & _ & _ & _ & Hvote & _).
  exact Hvote.
Defined.

(** alice has seen every joke of [exhausted_db]; bobby has not. *)
Lemma no_joke_is_displayed_iff_all_are_seen_witness :
  private_get_user exhausted_db 1 no_user_data
    = Ok (1, mkUserData (Some 1) None None)
  /\ Permutation (jokes exhausted_db) (rev (jokes exhausted_db))
  /\ NoDup (map Joke_id (jokes exhausted_db))
  /\ forallb (seen_by exhausted_db 1) (jokes exhausted_db) = true
  /\ r_out (display_random_joke (@rev Joke) exhausted_db 1 no_user_data)
     = [reply_random "no_new_jokes"]
  /\ r_out (display_best_joke exhausted_db 1 no_user_data) = [].
Proof.
  assert (Hids : NoDup (map Joke_id (jokes exhausted_db))).
  { simpl. repeat constructor; simpl; intros H;
      repeat (destruct H as [H|H]; [discriminate|]); exact H. }
  split; [reflexivity|]. split; [apply Permutation_rev|].
  split; [exact Hids|]. split; [reflexivity|].
  destruct (no_joke_is_displayed_iff_all_are_seen (@rev Joke) exhausted_db 1
              no_user_data 1 (mkUserData (Some 1) None None) eq_refl
              (Permutation_rev _) Hids) as [[_ Hrandom] [_ Hbest]].
  split; [apply Hrandom|apply Hbest]; reflexivity.
Defined.

Lemma favorite_joke_is_a_favorite_witness :
  private_get_user sample_db 3 no_user_data
    = Ok (3, mkUserData (Some 3) None None)
  /\ spec_get_jokes_voted_positive sample_db 3 = [joke0]
  /\ (exists joke,
         In joke (spec_get_jokes_voted_positive sample_db 3)
         /\ display_random_favorite_joke spec_get_jokes_voted_positive 5
              sample_db 3 no_user_data
            = mkResult sample_db (mkUserData (Some 3) None None)
                [reply_text (body joke)] [] None)
  /\ display_random_favorite_joke spec_get_jokes_voted_positive 5
       sample_db 1 no_user_data
     = mkResult sample_db (mkUserData (Some 1) None None)
         [reply_random "joke_no_favorite"] [] None.
Proof.
  split; [reflexivity|]. split; [reflexivity|].
  destruct (favorite_joke_is_a_favorite spec_get_jokes_voted_positive 5
              sample_db 3 no_user_data 3 (mkUserData (Some 3) None None) eq_refl)
    as (_ & Hsome & _).
  destruct (favorite_joke_is_a_favorite spec_get_jokes_voted_positive 5
              sample_db 1 no_user_data 1 (mkUserData (Some 1) None None) eq_refl)
    as (Hnone & _).
  split; [apply Hsome; discriminate|apply Hnone; reflexivity].
Defined.

(** Twelve users with the scores 12, 11, ..., 1: the list holds the ten
    users with the scores 1 to 10. *)
Lemma top10_lists_the_lowest_scores_witness :
  private_get_user twelve_db 1 no_user_data
    = Ok (1, mkUserData (Some 1) None None)
  /\ (exists lines,
         r_out (top10 twelve_db 1 no_user_data) = [reply_top10 lines]
         /\ map (fun line => fst (fst line)) lines = [1; 2; 3; 4; 5; 6; 7; 8; 9; 10]
         /\ map snd lines = [1; 2; 3; 4; 5; 6; 7; 8; 9; 10])
  /\ (exists listed rest lines,
         top10 twelve_db 1 no_user_data
           = mkResult twelve_db (mkUserData (Some 1) None None)
               [reply_top10 lines] [] None
         /\ Permutation (users twelve_db) (listed ++ rest)
         /\ List.length listed = Nat.min 10 (List.length (users twelve_db))
         /\ ascending score listed
         /\ (forall a b, In a listed -> In b rest -> score a <= score b)
         /\ map (fun line => fst (fst line)) lines
            = map (fun k => Z.of_nat k + 1) (seq 0 (List.length listed))
         /\ map (fun line => (snd (fst line), snd line)) lines
            = map (fun row => (username row, score row)) listed).
Proof.
  split; [reflexivity|]. split.
  - eexists. split; [reflexivity|]. split; reflexivity.
  - apply (top10_lists_the_lowest_scores twelve_db 1 no_user_data 1
             (mkUserData (Some 1) None None) eq_refl).
Defined.

(** alice (score 0) has rank 2, bobby (score 3) has rank 3. *)
Lemma rank_follows_score_witness :
  profile spec_get_average_score sample_db 1 no_user_data
    = Ok (mkResult sample_db (mkUserData (Some 1) None None)
            [reply_profile (py "alice") 2 0 2 (1 # 2)] [] None)
  /\ profile spec_get_average_score sample_db 2 no_user_data
     = Ok (mkResult sample_db (mkUserData (Some 2) None None)
             [reply_profile (py "bobby") 3 3 1 0] [] None)
  /\ 1 <= 2 <= len (users sample_db)
  /\ 2 < 3.
Proof.
  split; [reflexivity|]. split; [reflexivity|].
  destruct (rank_follows_score spec_get_average_score sample_db 1 2
              no_user_data no_user_data _ _ (py "alice") (py "bobby")
              2 3 0 3 2 1 (1 # 2) 0%Q eq_refl eq_refl eq_refl eq_refl)
    as [Hbounds Hlower].
  split; [exact Hbounds|]. apply Hlower. reflexivity.
Defined.

Lemma profile_rank_is_the_top10_line_witness :
  profile spec_get_average_score sample_db 1 no_user_data
    = Ok (mkResult sample_db (mkUserData (Some 1) None None)
            [reply_profile (py "alice") 2 0 2 (1 # 2)] [] None)
  /\ 2 <= 10
  /\ (exists lines,
         r_out (top10 sample_db 1 no_user_data) = [reply_top10 lines]
         /\ nth_error lines (Z.to_nat (2 - 1)) = Some (2, py "alice", 0)).
Proof.
  split; [reflexivity|]. split; [lia|].
  apply (profile_rank_is_the_top10_line spec_get_average_score sample_db 1
           no_user_data _ (py "alice") 2 0 2 (1 # 2) eq_refl eq_refl).
  lia.
Defined.

(** ** Validation failures at concrete inputs *)

(** Chat 7 is not registered and has opened the joke conversation with
    /add_joke: its text "short" is too short for a joke, but the answer is
    the registration keyboard, not the [joke_too_short] message.  The
    conversation stays open all the same. *)
Lemma joke_validation_needs_a_registered_user :
  let r := new_joke_received sample_db 7 (py "short") no_user_data in
  len (py "short") < 10
  /\ update_state (r_return (new_joke_prompt sample_db no_user_data)) IDLE
     = AWAITING_JOKE_BODY
  /\ private_get_user sample_db 7 no_user_data = Raise UserDoesNotExist
  /\ r = mkResult sample_db no_user_data [new_user_keyboard] [] None
  /\ r_out r <> [reply_random "joke_too_short"]
  /\ update_state (r_return r) AWAITING_JOKE_BODY = AWAITING_JOKE_BODY.
Proof. repeat split. discriminate. Qed.

(** alice, registered, sends "short" and then 1001 characters in the joke
    conversation; chat 9 sends "b!", "bo" and 21 letters in the registration
    conversation.  Each gets the message of its failure and the state of
    the conversation is kept. *)
Lemma validation_failure_keeps_state_witness :
  private_get_user sample_db 1 no_user_data
    = Ok (1, mkUserData (Some 1) None None)
  /\ new_joke_received sample_db 1 (py "short") no_user_data
     = mkResult sample_db (mkUserData (Some 1) None None)
         [reply_random "joke_too_short"] [] None
  /\ new_joke_received sample_db 1 (repeat 97%N 1001) no_user_data
     = mkResult sample_db (mkUserData (Some 1) None None)
         [reply_random "joke_too_long"] [] None
  /\ update_state
       (r_return (new_joke_received sample_db 1 (py "short") no_user_data))
       AWAITING_JOKE_BODY
     = AWAITING_JOKE_BODY
  /\ new_user_received_username sample_db 9 (py "b!") no_user_data
     = mkResult sample_db no_user_data
         [reply_random "username_invalid_characters"] [] None
  /\ new_user_received_username sample_db 9 (py "bo") no_user_data
     = mkResult sample_db no_user_data [reply_random "username_too_short"] [] None
  /\ new_user_received_username sample_db 9 (repeat 97%N 21) no_user_data
     = mkResult sample_db no_user_data [reply_random "username_too_long"] [] None
  /\ update_state
       (r_return (new_user_received_username sample_db 9 (py "bo") no_user_data))
       AWAITING_USERNAME
     = AWAITING_USERNAME.
Proof.
  split; [reflexivity|].
  destruct (validation_failure_keeps_state sample_db 1 (py "short")
              no_user_data AWAITING_JOKE_BODY)
    as (_ & Hjoke_state & Hshort & _).
  destruct (validation_failure_keeps_state sample_db 1 (repeat 97%N 1001)
              no_user_data AWAITING_JOKE_BODY)
    as (_ & _ & Hlong & _).
  destruct (validation_failure_keeps_state sample_db 9 (py "b!")
              no_user_data AWAITING_USERNAME)
    as ((_ & Hchars & _) & _).
  destruct (validation_failure_keeps_state sample_db 9 (py "bo")
              no_user_data AWAITING_USERNAME)
    as ((Hname_state & _ & Hname_short & _) & _).
  destruct (validation_failure_keeps_state sample_db 9 (repeat 97%N 21)
              no_user_data AWAITING_USERNAME)
    as ((_ & _ & _ & Hname_long) & _).
  split.
  { apply (Hshort 1 (mkUserData (Some 1) None None) eq_refl). reflexivity. }
  split.
  { apply (Hlong 1 (mkUserData (Some 1) None None) eq_refl). reflexivity. }
  split; [exact Hjoke_state|].
  split; [apply Hchars; reflexivity|].
  split; [apply Hname_short; reflexivity|].
  split; [apply Hname_long; reflexivity|].
  exact Hname_state.
Defined.

(** ** Voting after /best_joke at concrete inputs *)

(** carol with a fresh session: /best_joke displays [joke2], and the /hah
    that follows is answered with [joke_no_current].  carol with [joke1]
    remembered from /random_joke: /best_joke displays [joke2] again, and the
    /hah that follows is cast on joke 1, not on joke 2. *)
Lemma best_and_favorite_do_not_arm_a_vote_witness :
  r_out (display_best_joke sample_db 3 no_user_data) = [reply_text (body joke2)]
  /\ r_out (vote_for_joke spec_vote_for_joke
              (r_db (display_best_joke sample_db 3 no_user_data)) 3 (py "/hah")
              (r_user_data (display_best_joke sample_db 3 no_user_data)))
     = [reply_random "joke_no_current"]
  /\ r_out (display_best_joke sample_db 3 shown_joke1) = [reply_text (body joke2)]
  /\ r_db (vote_for_joke spec_vote_for_joke
             (r_db (display_best_joke sample_db 3 shown_joke1)) 3 (py "/hah")
             (r_user_data (display_best_joke sample_db 3 shown_joke1)))
     = mkDB (users sample_db)
            [joke0; mkJoke 1 knock 1 2; joke2]
            [mkVote 3 0 true; mkVote 3 1 true].
Proof.
  split; [reflexivity|].
  destruct (best_and_favorite_do_not_arm_a_vote spec_vote_for_joke
              spec_get_jokes_voted_positive 0 sample_db 3 no_user_data
              (py "/hah")) as (_ & _ & _ & _ & _ & _ & Hfresh).
  destruct (Hfresh 3 (mkUserData (Some 3) None None) eq_refl) as [Hnone _].
  destruct (Hnone eq_refl) as (Hout & _).
  split; [exact Hout|]. split; [reflexivity|].
  destruct (best_and_favorite_do_not_arm_a_vote spec_vote_for_joke
              spec_get_jokes_voted_positive 0 sample_db 3 shown_joke1
              (py "/hah")) as (_ & _ & _ & _ & _ & _ & Hshown).
  destruct (Hshown 3 (mkUserData (Some 3) None (Some 1)) eq_refl) as [_ Hsome].
  destruct (Hsome 1 eq_refl) as (Hdb & _).
  exact Hdb.
Defined.
